(** * Wings: server environment power actions and installer

    A shallow embedding of the Docker-backed process environment
    ([environment/docker/power.go], the container file holding [Attach],
    [Create], [Destroy], [followOutput] and [ensureImageExists]) and of
    the installer constructor ([installer/installer.go]).

    The Go methods mutate an [Environment] and talk to the Docker daemon
    and to the host file system.  Here a method is a computation in a
    state-and-log monad [M]: the state is the environment together with
    the host, and the log collects, in program order, every state change
    published, every request sent to the runtime, every log line and
    every goroutine started.  The runtime itself is an interface
    ([APIClient], [OS]): theorems hold for whatever the daemon answers. *)

From Stdlib Require Import ZArith List String Ascii Bool Lia DecimalString.
Import ListNotations.
Local Open Scope string_scope.
Local Open Scope Z_scope.

(** ** Process states

    Modelled from the spec: the state constants of package [system] are not
    part of the sources at hand.  "One of {Offline, Starting, Running,
    Stopping}." *)

Inductive ProcessState : Type :=
| ProcessOfflineState
| ProcessStartingState
| ProcessRunningState
| ProcessStoppingState.

Definition ProcessState_eqb (a b : ProcessState) : bool :=
  match a, b with
  | ProcessOfflineState, ProcessOfflineState
  | ProcessStartingState, ProcessStartingState
  | ProcessRunningState, ProcessRunningState
  | ProcessStoppingState, ProcessStoppingState => true
  | _, _ => false
  end.

(** ** Errors *)

Inductive error : Type :=
| ErrNotFound (msg : string)        (* the runtime reports "no such container" *)
| ErrDaemon (msg : string)          (* any other failure of a runtime request *)
| ErrPath (msg : string)            (* *os.PathError *)
| DeadlineExceeded                  (* context.DeadlineExceeded *)
| errors_New (msg : string)
| ValidationError (msg : string)    (* installer.NewValidationError *)
| KeyPathNotFoundError              (* jsonparser: key path not found *)
| UnmarshalError (msg : string)     (* encoding/json *)
| WithStack (e : error).

(** [client.IsErrNotFound], as in the client the module file pins: a type
    assertion on the error itself, which does not look inside a wrapped
    error. *)
Definition IsErrNotFound (e : error) : bool :=
  match e with
  | ErrNotFound _ => true
  | _ => false
  end.

(** [errors.WithStack] maps nil to nil. *)
Definition errors_WithStack (e : option error) : option error :=
  match e with
  | None => None
  | Some e' => Some (WithStack e')
  end.

(** ** Signals and the signal name sent to the runtime *)

Inductive Signal : Type :=
| os_Kill
| os_Interrupt
| SIGTERM.

Definition Signal_String (s : Signal) : string :=
  match s with
  | os_Kill => "killed"
  | os_Interrupt => "interrupt"
  | SIGTERM => "terminated"
  end.

Definition HasPrefix (s p : string) : bool := String.prefix p s.

Definition HasSuffix (s suf : string) : bool :=
  (String.length suf <=? String.length s)%nat &&
  String.eqb (substring (String.length s - String.length suf) (String.length suf) s) suf.

Definition TrimPrefix (s p : string) : string :=
  if HasPrefix s p
  then substring (String.length p) (String.length s - String.length p) s
  else s.

Definition TrimSuffix (s suf : string) : string :=
  if HasSuffix s suf
  then substring 0 (String.length s - String.length suf) s
  else s.

(** ** Durations: [time.Duration] is a signed 64-bit count of nanoseconds *)

Definition wrap64 (z : Z) : Z := (z + 2 ^ 63) mod 2 ^ 64 - 2 ^ 63.

Definition time_Second : Z := 1000000000.
Definition time_Minute : Z := 60 * time_Second.

(** [time.Duration(seconds) * time.Second] *)
Definition seconds_Duration (seconds : Z) : Z := wrap64 (seconds * time_Second).

(** ** Requests to the container runtime *)

Record ContainerJSON : Type := {
  State_Running : bool;
  LogPath : string
}.

Record ContainerRemoveOptions : Type := {
  RemoveVolumes : bool;
  RemoveLinks : bool;
  Force : bool
}.

Record ContainerAttachOptions : Type := {
  Attach_Stdin : bool;
  Attach_Stdout : bool;
  Attach_Stderr : bool;
  Attach_Stream : bool
}.

Record ContainerLogsOptions : Type := {
  ShowStderr : bool;
  ShowStdout : bool;
  Follow : bool
}.

Record ImagePullOptions : Type := {
  All : bool;
  RegistryAuth : string
}.

Record ImageSummary : Type := {
  RepoTags : list string
}.

Record Mount : Type := {
  Mount_Source : string;
  Mount_Target : string;
  Mount_ReadOnly : bool
}.

(** The values the environment configuration hands to [Create]
    ([Allocations()], [EnvironmentVariables(invocation)], [Mounts()] and
    the resource limits of [resources()]), already evaluated. *)
Record Configuration : Type := {
  Exposed : list string;
  Bindings : list (string * list string);
  EnvironmentVariables : string -> list string;
  Mounts : list Mount;
  resources : list (string * Z)
}.

Record Config : Type := {
  Hostname : string;
  Domainname : string;
  User : string;
  AttachStdin : bool;
  AttachStdout : bool;
  AttachStderr : bool;
  OpenStdin : bool;
  Tty : bool;
  ExposedPorts : list string;
  Image : string;
  Env : list string;
  Labels : list (string * string)
}.

Record HostConfig : Type := {
  PortBindings : list (string * list string);
  HostMounts : list Mount;
  Tmpfs : list (string * string);
  Resources : list (string * Z);
  DNS : list string;
  LogConfig_Type : string;
  LogConfig_Config : list (string * string);
  SecurityOpt : list string;
  ReadonlyRootfs : bool;
  CapDrop : list string;
  NetworkMode : string
}.

Inductive WaitCondition : Type :=
| WaitConditionNotRunning.

(** Which arm of the [select] in [WaitForStop] fires. *)
Inductive WaitResult : Type :=
| ctx_Done                          (* the deadline passed first *)
| errChan (err : option error)      (* a value arrived on the error channel *)
| okChan.                           (* the container is no longer running *)

Inductive Request : Type :=
| ContainerRemoveReq (id : string) (o : ContainerRemoveOptions)
| ContainerCreateReq (conf : Config) (hostConf : HostConfig) (name : string)
| ContainerStartReq (timeout : Z) (id : string)
| ContainerStopReq (id : string) (timeout : Z)
| ContainerKillReq (id : string) (sig : string)
| ContainerWaitReq (timeout : Z) (id : string) (c : WaitCondition)
| ContainerAttachReq (id : string) (o : ContainerAttachOptions)
| ContainerLogsReq (id : string) (o : ContainerLogsOptions)
| ImagePullReq (timeout : Z) (image : string) (o : ImagePullOptions)
| ConnWriteReq (data : string)
| TruncateReq (path : string) (size : Z).

Inductive Goroutine : Type :=
| LogFollower (id : string)         (* scans the log reader, publishes console lines *)
| LogFollowerNilReader (id : string)
    (* the same goroutine handed the nil reader of a failed logs request:
       it panics on the deferred Close, which takes the process down *)
| AttachCopier (id : string).       (* copies the attach stream to the console *)

Inductive Level : Type := Debug | Warn | Error.

(** What an operation leaves behind, in program order. *)
Inductive Effect : Type :=
| StateChange (prev new : ProcessState)
| Sent (r : Request)
| Logged (l : Level) (msg : string)
| Go (g : Goroutine).

(** The Docker client.  [ContainerInspect] and [ImageList] are read-only
    requests; every other request may change the host. *)
Class APIClient (Host : Type) : Type := {
  ContainerInspect : Host -> string -> error + ContainerJSON;
  ContainerRemove : Host -> string -> ContainerRemoveOptions -> option error * Host;
  ContainerCreate : Host -> Config -> HostConfig -> string -> option error * Host;
  ContainerStart : Host -> Z -> string -> option error * Host;
  ContainerStop : Host -> string -> Z -> option error * Host;
  ContainerKill : Host -> string -> string -> option error * Host;
  ContainerWait : Host -> Z -> string -> WaitCondition -> WaitResult * Host;
  ContainerAttach : Host -> string -> ContainerAttachOptions -> (error + nat) * Host;
  ContainerLogs : Host -> string -> ContainerLogsOptions -> option error * Host;
  (* on success the pull stream is drained; the inner error is scanner.Err() *)
  ImagePull : Host -> Z -> string -> ImagePullOptions -> (error + option error) * Host;
  ImageList : Host -> Z -> error + list ImageSummary;
  (* a write on the hijacked attach connection *)
  ConnWrite : Host -> nat -> string -> option error * Host
}.

(** The part of package [os] that [Start] uses. *)
Class OS (Host : Type) : Type := {
  os_Stat : Host -> string -> option error;
  os_Truncate : Host -> string -> Z -> option error * Host
}.

(** ** The environment *)

(** Modelled from the spec: the stop directive of package [api] is not part
    of the sources at hand.  "[Stop] = { [Type]: one of {Signal, Command},
    [Value]: signal name or literal command text }"; the third constructor
    stands for any other value of the type field, which [Stop] hands to the
    runtime. *)
Inductive ProcessStopType : Type :=
| ProcessStopSignal
| ProcessStopCommand
| ProcessStopNativeStop.

Record ProcessStopConfiguration : Type := {
  Stop_Type : ProcessStopType;
  Stop_Value : string
}.

Record Environment : Type := {
  Id : string;
  image : string;
  invocation : string;
  meta_Stop : ProcessStopConfiguration;
  configuration : Configuration;
  st : ProcessState;
  stream : option nat
}.

Definition with_st (s : ProcessState) (e : Environment) : Environment :=
  {| Id := Id e; image := image e; invocation := invocation e;
     meta_Stop := meta_Stop e; configuration := configuration e;
     st := s; stream := stream e |}.

Definition with_stream (c : option nat) (e : Environment) : Environment :=
  {| Id := Id e; image := image e; invocation := invocation e;
     meta_Stop := meta_Stop e; configuration := configuration e;
     st := st e; stream := c |}.

(** Registry credentials of the daemon configuration. *)
Record RegistryConfiguration : Type := {
  Username : string;
  Password : string
}.

(** The fields of [config.Get()] read by the environment. *)
Record GlobalConfiguration : Type := {
  Docker_Domainname : string;
  System_User_Uid : Z;
  Docker_Network_Dns : list string;
  Docker_Network_Mode : string;
  (* in the order the range over the map visits them *)
  Docker_Registries : list (string * RegistryConfiguration)
}.

(** [config.Get()] and the [Base64()] method of a registry configuration
    (package [config]). *)
Class Daemon : Type := {
  config_Get : GlobalConfiguration;
  Base64 : RegistryConfiguration -> string * option error
}.

(** [strconv.Itoa] *)
Definition strconv_Itoa (z : Z) : string :=
  NilZero.string_of_int (Z.to_int z).

(** ** The monad of environment methods *)

Section DockerEnvironment.

Context {Host : Type} {client : APIClient Host} {os : OS Host} {daemon : Daemon}.

Record World : Type := mkWorld {
  env : Environment;
  host : Host
}.

Record Outcome (A : Type) : Type := mkOutcome {
  value : A;
  world : World;
  effects : list Effect
}.
Arguments mkOutcome {A} _ _ _.
Arguments value {A} _.
Arguments world {A} _.
Arguments effects {A} _.

Definition M (A : Type) : Type := World -> Outcome A.

Definition ret {A} (a : A) : M A := fun w => mkOutcome a w [].

Definition bind {A B} (m : M A) (f : A -> M B) : M B := fun w =>
  let o := m w in
  let o' := f (value o) (world o) in
  mkOutcome (value o') (world o') (effects o ++ effects o')%list.

Notation "x <- c ;; k" := (bind c (fun x => k))
  (at level 61, c at next level, right associativity).
Notation "c ;; k" := (bind c (fun _ => k))
  (at level 61, right associativity).

Definition getEnv : M Environment := fun w => mkOutcome (env w) w [].

Definition putEnv (e : Environment) : M unit := fun w =>
  mkOutcome tt (mkWorld e (host w)) [].

Definition emit (ef : Effect) : M unit := fun w => mkOutcome tt w [ef].

(** A read-only request. *)
Definition ask {R} (q : Host -> R) : M R := fun w => mkOutcome (q (host w)) w [].

(** A request that may change the host; it is recorded when it is sent. *)
Definition send {R} (r : Request) (f : Host -> R * Host) : M R := fun w =>
  let a := f (host w) in
  mkOutcome (fst a) (mkWorld (env w) (snd a)) [Sent r].

(** ** State, stream and console helpers *)

(** Modelled from the spec: [setState] is not part of the sources at hand.
    "Every transition publishes a state-change event carrying (previous,
    new).  A transition to the same state is a no-op (no event)." *)
Definition setState (s : ProcessState) : M unit :=
  e <- getEnv;;
  if ProcessState_eqb (st e) s then ret tt
  else putEnv (with_st s e);; emit (StateChange (st e) s).

(** Modelled from the spec: [IsAttached] and [SetStream] are not part of the
    sources at hand; the environment is attached while it holds a stream
    handle ("the state is set to Offline and the stream handle cleared"). *)
Definition IsAttached : M bool :=
  e <- getEnv;;
  ret (match stream e with Some _ => true | None => false end).

Definition SetStream (s : option nat) : M unit :=
  e <- getEnv;;
  putEnv (with_stream s e).

(** Modelled from the spec: [SendCommand] is not part of the sources at
    hand.  "Writes [s\n] to the process input stream"; fails when the
    environment is not attached. *)
Definition SendCommand (c : string) : M (option error) :=
  e <- getEnv;;
  match stream e with
  | None => ret (Some (errors_New "attempting to send command to non-attached instance"))
  | Some conn =>
      let data := c ++ String (ascii_of_nat 10) "" in
      err <- send (ConnWriteReq data) (fun h => ConnWrite h conn data);;
      ret (errors_WithStack err)
  end.

(** Modelled from the spec: [Exists] is not part of the sources at hand.
    "Returns whether a backing process resource is materialized"; a
    not-found answer is [false] without an error, any other failure is
    passed on. *)
Definition Exists : M (bool * option error) :=
  e <- getEnv;;
  c <- ask (fun h => ContainerInspect h (Id e));;
  match c with
  | inr _ => ret (true, None)
  | inl err => if IsErrNotFound err then ret (false, None) else ret (false, Some err)
  end.

(** ** The container file: ensureImageExists, Create, followOutput, Attach,
       Destroy *)

(** The range over the registries: the first one that prefixes the image. *)
Fixpoint findRegistry (image : string) (rs : list (string * RegistryConfiguration))
  : option (string * RegistryConfiguration) :=
  match rs with
  | [] => None
  | (registry, c) :: rest =>
      if negb (HasPrefix image registry) then findRegistry image rest
      else Some (registry, c)
  end.

(** The two nested loops over the local images and their tags. *)
Definition existsLocally (image : string) (images : list ImageSummary) : bool :=
  existsb (fun img => existsb (fun t => String.eqb t image) (RepoTags img)) images.

(** The registry credentials picked by the range, and the pull options
    built from them ([b64] is empty when [Base64] fails). *)
Definition registryAuth (image : string) : option RegistryConfiguration :=
  match findRegistry image (Docker_Registries config_Get) with
  | None => None
  | Some (registry, c) => Some c
  end.

Definition imagePullOptions (image : string) : ImagePullOptions :=
  match registryAuth image with
  | None => {| All := false; RegistryAuth := "" |}
  | Some c => {| All := false; RegistryAuth := fst (Base64 c) |}
  end.

Definition pullTimeout : Z := time_Minute * 15.

Definition ensureImageExists (image : string) : M (option error) :=
  match registryAuth image with
  | None => ret tt
  | Some c =>
      emit (Logged Debug "using authentication for registry");;
      match snd (Base64 c) with
      | Some _ => emit (Logged Error "failed to get registry auth credentials")
      | None => ret tt
      end
  end;;
  out <- send (ImagePullReq pullTimeout image (imagePullOptions image))
              (fun h => ImagePull h pullTimeout image (imagePullOptions image));;
  match out with
  | inl err =>
      images <- ask (fun h => ImageList h pullTimeout);;
      match images with
      | inl ierr => ret (Some ierr)
      | inr images =>
          if existsLocally image images
          then emit (Logged Warn
                 "unable to pull requested image from remote source, however the image exists locally");;
               ret None
          else ret (Some err)
      end
  | inr scannerErr =>
      emit (Logged Debug "pulling docker image... this could take a bit of time");;
      ret scannerErr
  end.

Definition containerConfig (e : Environment) (invocation : string) : Config :=
  {| Hostname := Id e;
     Domainname := Docker_Domainname config_Get;
     User := strconv_Itoa (System_User_Uid config_Get);
     AttachStdin := true;
     AttachStdout := true;
     AttachStderr := true;
     OpenStdin := true;
     Tty := true;
     ExposedPorts := Exposed (configuration e);
     Image := image e;
     Env := EnvironmentVariables (configuration e) invocation;
     Labels := [("Service", "Pterodactyl"); ("ContainerType", "server_process")] |}.

Definition containerHostConfig (e : Environment) : HostConfig :=
  {| PortBindings := Bindings (configuration e);
     HostMounts := Mounts (configuration e);
     Tmpfs := [("/tmp", "rw,exec,nosuid,size=50M")];
     Resources := resources (configuration e);
     DNS := Docker_Network_Dns config_Get;
     LogConfig_Type := "json-file";
     LogConfig_Config := [("max-size", "5m"); ("max-file", "1")];
     SecurityOpt := ["no-new-privileges"];
     ReadonlyRootfs := true;
     CapDrop := ["setpcap"; "mknod"; "audit_write"; "net_raw"; "dac_override";
                 "fowner"; "fsetid"; "net_bind_service"; "sys_chroot"; "setfcap"];
     NetworkMode := Docker_Network_Mode config_Get |}.

Definition Create (invocation : string) : M (option error) :=
  e <- getEnv;;
  c <- ask (fun h => ContainerInspect h (Id e));;
  match c with
  | inr _ => ret None
  | inl err =>
      if negb (IsErrNotFound err) then ret (Some (WithStack err))
      else
        err <- ensureImageExists (image e);;
        match err with
        | Some err => ret (Some (WithStack err))
        | None =>
            let conf := containerConfig e invocation in
            let hostConf := containerHostConfig e in
            err <- send (ContainerCreateReq conf hostConf (Id e))
                        (fun h => ContainerCreate h conf hostConf (Id e));;
            match err with
            | Some err => ret (Some (WithStack err))
            | None => ret None
            end
        end
  end.

(** The reader of the logs request is handed to the goroutine before the
    error is looked at: when the request failed the reader is nil. *)
Definition followOutput : M (option error) :=
  e <- getEnv;;
  x <- Exists;;
  if negb (fst x) then
    match snd x with
    | Some err => ret (Some (WithStack err))
    | None => ret (Some (errors_New ("no such container: " ++ Id e)))
    end
  else
    let opts := {| ShowStderr := true; ShowStdout := true; Follow := true |} in
    err <- send (ContainerLogsReq (Id e) opts) (fun h => ContainerLogs h (Id e) opts);;
    emit (Go (match err with
              | None => LogFollower (Id e)
              | Some _ => LogFollowerNilReader (Id e)
              end));;
    ret (errors_WithStack err).

Definition Attach : M (option error) :=
  attached <- IsAttached;;
  if attached then ret None
  else
    err <- followOutput;;
    match err with
    | Some err => ret (Some (WithStack err))
    | None =>
        e <- getEnv;;
        let opts := {| Attach_Stdin := true; Attach_Stdout := true;
                       Attach_Stderr := true; Attach_Stream := true |} in
        r <- send (ContainerAttachReq (Id e) opts) (fun h => ContainerAttach h (Id e) opts);;
        match r with
        | inl err => ret (Some (WithStack err))
        | inr st =>
            SetStream (Some st);;
            emit (Go (AttachCopier (Id e)));;
            ret None
        end
    end.

(** The deferred functions of the goroutine started by [Attach]; they run
    when the copy of the attach stream returns, that is when the stream
    closes. *)
Definition attachStreamClosed : M unit :=
  setState ProcessOfflineState;;
  SetStream None.

Definition Destroy : M (option error) :=
  setState ProcessStoppingState;;
  e <- getEnv;;
  let opts := {| RemoveVolumes := true; RemoveLinks := false; Force := true |} in
  err <- send (ContainerRemoveReq (Id e) opts) (fun h => ContainerRemove h (Id e) opts);;
  match err with
  | Some err' =>
      if IsErrNotFound err' then ret None
      else setState ProcessOfflineState;; ret err
  | None => setState ProcessOfflineState;; ret err
  end.

(** ** power.go *)

(** The source calls [e.Create()]; the invocation it is created with is the
    one the environment holds. *)
Definition OnBeforeStart : M (option error) :=
  e <- getEnv;;
  let opts := {| RemoveVolumes := true; RemoveLinks := false; Force := false |} in
  err <- send (ContainerRemoveReq (Id e) opts) (fun h => ContainerRemove h (Id e) opts);;
  let create :=
    err <- Create (invocation e);;
    match err with
    | Some err => ret (Some err)
    | None => ret None
    end in
  match err with
  | Some err' => if negb (IsErrNotFound err') then ret (Some err') else create
  | None => create
  end.

Definition Terminate (signal : Signal) : M (option error) :=
  e <- getEnv;;
  c <- ask (fun h => ContainerInspect h (Id e));;
  match c with
  | inl err => ret (Some (WithStack err))
  | inr c =>
      if negb (State_Running c) then ret None
      else
        setState ProcessStoppingState;;
        let sig := TrimSuffix (TrimPrefix (Signal_String signal) "signal ") "ed" in
        err <- send (ContainerKillReq (Id e) sig) (fun h => ContainerKill h (Id e) sig);;
        match err with
        | Some err => ret (Some err)
        | None => setState ProcessOfflineState;; ret None
        end
  end.

Definition Stop : M (option error) :=
  e <- getEnv;;
  let s := meta_Stop e in
  match Stop_Type s with
  | ProcessStopSignal => Terminate os_Kill
  | _ =>
      setState ProcessStoppingState;;
      attached <- IsAttached;;
      if attached && match Stop_Type s with ProcessStopCommand => true | _ => false end
      then SendCommand (Stop_Value s)
      else
        let t := time_Second * 10 in
        err <- send (ContainerStopReq (Id e) t) (fun h => ContainerStop h (Id e) t);;
        match err with
        | Some err' =>
            if IsErrNotFound err'
            then SetStream None;; setState ProcessOfflineState;; ret None
            else ret (Some err')
        | None => ret None
        end
  end.

Definition WaitForStop (seconds : Z) (terminate : bool) : M (option error) :=
  err <- Stop;;
  match err with
  | Some err => ret (Some (WithStack err))
  | None =>
      e <- getEnv;;
      let timeout := seconds_Duration seconds in
      r <- send (ContainerWaitReq timeout (Id e) WaitConditionNotRunning)
                (fun h => ContainerWait h timeout (Id e) WaitConditionNotRunning);;
      match r with
      | ctx_Done =>
          if terminate then Terminate os_Kill
          else ret (Some (WithStack DeadlineExceeded))
      | errChan (Some err) => ret (Some (WithStack err))
      | errChan None => ret None
      | okChan => ret None
      end
  end.

(** Either the method returns here, or control falls through to the next
    statement. *)
Inductive flow : Type :=
| Return (err : option error)
| Next.

(** [Start], lines 73-98: the inspection of the container. *)
Definition Start_inspect : M flow :=
  e <- getEnv;;
  c <- ask (fun h => ContainerInspect h (Id e));;
  match c with
  | inl err =>
      if negb (IsErrNotFound err) then ret (Return (Some (WithStack err)))
      else ret Next
  | inr c =>
      if State_Running c then
        setState ProcessRunningState;;
        err <- Attach;;
        ret (Return err)
      else
        statErr <- ask (fun h => os_Stat h (LogPath c));;
        match statErr with
        | None =>
            err <- send (TruncateReq (LogPath c) 0) (fun h => os_Truncate h (LogPath c) 0);;
            match err with
            | Some err => ret (Return (Some (WithStack err)))
            | None => ret Next
            end
        | Some _ => ret Next
        end
  end.

(** [Start], lines 100-136: the boot chain.  The first component is the
    value of [sawError] when the method returns. *)
Definition Start_boot : M (bool * option error) :=
  setState ProcessStartingState;;
  err <- OnBeforeStart;;
  match err with
  | Some err => ret (true, Some (WithStack err))
  | None =>
      e <- getEnv;;
      let timeout := time_Second * 10 in
      err <- send (ContainerStartReq timeout (Id e)) (fun h => ContainerStart h timeout (Id e));;
      match err with
      | Some err => ret (true, Some (WithStack err))
      | None =>
          err <- Attach;;
          ret (false, err)
      end
  end.

(** [Start]: the body, then the deferred function, which reads [sawError]. *)
Definition Start : M (option error) :=
  f <- Start_inspect;;
  r <- match f with
       | Return err => ret (false, err)
       | Next => Start_boot
       end;;
  (if fst r : bool
   then setState ProcessStoppingState;; setState ProcessOfflineState
   else ret tt);;
  ret (snd r).

Definition Restart : M (option error) :=
  err <- WaitForStop 60 false;;
  match err with
  | Some err => ret (Some err)
  | None => Start
  end.

End DockerEnvironment.

Arguments mkOutcome {Host A} _ _ _.
Arguments value {Host A} _.
Arguments world {Host A} _.
Arguments effects {Host A} _.
Arguments mkWorld {Host} _ _.
Arguments env {Host} _.
Arguments host {Host} _.

Notation "x <- c ;; k" := (bind c (fun x => k))
  (at level 61, c at next level, right associativity).
Notation "c ;; k" := (bind c (fun _ => k))
  (at level 61, right associativity).

(** ** The transition table of the state machine *)

Definition legalTransition (a b : ProcessState) : bool :=
  match a, b with
  | ProcessOfflineState, ProcessStartingState
  | ProcessStartingState, ProcessRunningState
  | ProcessStartingState, ProcessStoppingState
  | ProcessRunningState, ProcessStoppingState
  | ProcessStoppingState, ProcessOfflineState
  | ProcessRunningState, ProcessOfflineState
  | ProcessStartingState, ProcessOfflineState => true
  | _, _ => false
  end.

(** The state changes among the effects of an operation, in order. *)
Fixpoint stateChanges (l : list Effect) : list (ProcessState * ProcessState) :=
  match l with
  | [] => []
  | StateChange a b :: rest => (a, b) :: stateChanges rest
  | _ :: rest => stateChanges rest
  end.

(** The requests among the effects of an operation, in order. *)
Fixpoint requests (l : list Effect) : list Request :=
  match l with
  | [] => []
  | Sent r :: rest => r :: requests rest
  | _ :: rest => requests rest
  end.

Definition isKill (r : Request) : bool :=
  match r with ContainerKillReq _ _ => true | _ => false end.

Definition isPull (r : Request) : bool :=
  match r with ImagePullReq _ _ _ => true | _ => false end.


Definition isStart (r : Request) : bool :=
  match r with ContainerStartReq _ _ => true | _ => false end.

Definition isStop (r : Request) : bool :=
  match r with ContainerStopReq _ _ => true | _ => false end.

(** The operations of the environment that write the state. *)
Inductive Operation : Type :=
| OpStart
| OpStop
| OpWaitForStop (seconds : Z) (terminate : bool)
| OpTerminate (signal : Signal)
| OpDestroy
| OpStreamClosed.

Section Operations.

Context {Host : Type} {client : APIClient Host} {os : OS Host} {daemon : Daemon}.

Definition perform (op : Operation) : M (Host := Host) (option error) :=
  match op with
  | OpStart => Start
  | OpStop => Stop
  | OpWaitForStop seconds terminate => WaitForStop seconds terminate
  | OpTerminate signal => Terminate signal
  | OpDestroy => Destroy
  | OpStreamClosed => attachStreamClosed;; ret None
  end.

(** The states in which an operation's first write is a pair of the table.
    [Start] writes Running when the container already runs and Starting
    otherwise; the other operations write Stopping or Offline. *)
Definition entryGuard (op : Operation) (w : World (Host := Host)) : bool :=
  match op with
  | OpStart =>
      match ContainerInspect (host w) (Id (env w)) with
      | inr c =>
          if State_Running c
          then match st (env w) with
               | ProcessStartingState | ProcessRunningState => true
               | _ => false
               end
          else match st (env w) with
               | ProcessOfflineState | ProcessStartingState => true
               | _ => false
               end
      | inl err =>
          if IsErrNotFound err
          then match st (env w) with
               | ProcessOfflineState | ProcessStartingState => true
               | _ => false
               end
          else true
      end
  | _ => true
  end.

(** A state change an operation may perform: a pair of the table, or, for
    the operations that write Stopping without reading the state first,
    Offline to Stopping. *)
Definition permitted (op : Operation) (p : ProcessState * ProcessState) : bool :=
  legalTransition (fst p) (snd p) ||
  match op, p with
  | (OpStop | OpWaitForStop _ _ | OpTerminate _ | OpDestroy),
    (ProcessOfflineState, ProcessStoppingState) => true
  | _, _ => false
  end.

(** A computation is quiet when it leaves the state variable alone and
    publishes no state change. *)
Definition quiet {A} (m : M (Host := Host) A) : Prop :=
  forall w, st (env (world (m w))) = st (env w) /\ stateChanges (effects (m w)) = [].

(** A computation writes only states accepted by [T], and publishes a
    change only when the state really changes. *)
Definition writesOnly {A} (T : ProcessState -> bool) (m : M (Host := Host) A) : Prop :=
  forall w, Forall (fun p => fst p <> snd p /\ T (snd p) = true)
                   (stateChanges (effects (m w))).

Definition stoppingOrOffline (s : ProcessState) : bool :=
  match s with
  | ProcessStoppingState | ProcessOfflineState => true
  | _ => false
  end.

Definition offlineOnly (s : ProcessState) : bool :=
  match s with
  | ProcessOfflineState => true
  | _ => false
  end.

(** The error returns of [Start] ahead of the final attach: the
    inspection of the container, the truncation of its log, and the two
    steps of the boot chain. *)
Inductive StartFailure : Type :=
| InspectFailed
| TruncateFailed
| OnBeforeStartFailed
| ContainerStartFailed.

(** The world in which the boot chain runs [OnBeforeStart]. *)
Definition booting (w : World (Host := Host)) : World (Host := Host) :=
  world (setState ProcessStartingState (world (Start_inspect w))).

Definition failsAt (f : StartFailure) (e : error) (w : World (Host := Host)) : Prop :=
  match f with
  | InspectFailed =>
      ContainerInspect (host w) (Id (env w)) = inl e /\ IsErrNotFound e = false
  | TruncateFailed =>
      exists c, ContainerInspect (host w) (Id (env w)) = inr c /\
                State_Running c = false /\
                os_Stat (host w) (LogPath c) = None /\
                fst (os_Truncate (host w) (LogPath c) 0) = Some e
  | OnBeforeStartFailed =>
      value (Start_inspect w) = Next /\
      value (OnBeforeStart (booting w)) = Some e
  | ContainerStartFailed =>
      value (Start_inspect w) = Next /\
      value (OnBeforeStart (booting w)) = None /\
      let prepared := world (OnBeforeStart (booting w)) in
      fst (ContainerStart (host prepared) (time_Second * 10) (Id (env prepared))) = Some e
  end.

(** Restart as the specification words it: "[WaitForStop(60, false)] then
    [Start()]", the latter only when the former returned no error. *)
Definition Restart_spec (w : World (Host := Host)) : Outcome (Host := Host) (option error) :=
  let stopped := WaitForStop 60 false w in
  match value stopped with
  | Some err => mkOutcome (Some err) (world stopped) (effects stopped)
  | None =>
      let started := Start (world stopped) in
      mkOutcome (value started) (world started) (effects stopped ++ effects started)%list
  end.

(** Two calls of [Restart] that overlap: the second caller runs from start
    to finish while the first one has finished waiting for the stop and has
    not yet started the process. *)
Definition overlappingRestarts : M (Host := Host) (option error * option error) :=
  first_stop <- WaitForStop 60 false;;
  second <- Restart;;
  first <- match first_stop with
           | Some err => ret (Some err)
           | None => Start
           end;;
  ret (first, second).

End Operations.

(** ** A reference host

    A small deterministic daemon used to run the model on concrete
    inputs: one container slot, a list of local images, and switches for
    the failures the operations have to cope with. *)

Module Sim.

Record Host : Type := mkHost {
  reachable : bool;                 (* the daemon answers requests *)
  container : option bool;          (* the container, and whether it runs *)
  images : list ImageSummary;       (* local images *)
  registry : bool;                  (* the remote registry answers *)
  obeys : bool                      (* the process exits when asked to stop *)
}.

Definition withContainer (c : option bool) (h : Host) : Host :=
  mkHost (reachable h) c (images h) (registry h) (obeys h).

Definition unreachable : error := ErrDaemon "Cannot connect to the Docker daemon".
Definition noSuchContainer : error := ErrNotFound "No such container".

Definition logPath (id : string) : string :=
  "/var/lib/docker/containers/" ++ id ++ "/" ++ id ++ "-json.log".

Definition inspect (h : Host) (id : string) : error + ContainerJSON :=
  if negb (reachable h) then inl unreachable
  else match container h with
       | None => inl noSuchContainer
       | Some r => inr {| State_Running := r; LogPath := logPath id |}
       end.

Definition remove (h : Host) (id : string) (o : ContainerRemoveOptions)
  : option error * Host :=
  if negb (reachable h) then (Some unreachable, h)
  else match container h with
       | None => (Some noSuchContainer, h)
       | Some r =>
           if r && negb (Force o)
           then (Some (ErrDaemon "You cannot remove a running container"), h)
           else (None, withContainer None h)
       end.

Definition create (h : Host) (conf : Config) (hostConf : HostConfig) (name : string)
  : option error * Host :=
  if negb (reachable h) then (Some unreachable, h)
  else match container h with
       | Some _ => (Some (ErrDaemon "Conflict. The container name is already in use"), h)
       | None =>
           if existsb (fun img => existsb (fun t => String.eqb t (Image conf)) (RepoTags img))
                      (images h)
           then (None, withContainer (Some false) h)
           else (Some (ErrNotFound "No such image"), h)
       end.

Definition start (h : Host) (timeout : Z) (id : string) : option error * Host :=
  if negb (reachable h) then (Some unreachable, h)
  else match container h with
       | None => (Some noSuchContainer, h)
       | Some _ => (None, withContainer (Some true) h)
       end.

Definition stop (h : Host) (id : string) (timeout : Z) : option error * Host :=
  if negb (reachable h) then (Some unreachable, h)
  else match container h with
       | None => (Some noSuchContainer, h)
       | Some _ => (None, withContainer (Some false) h)
       end.

Definition kill (h : Host) (id : string) (sig : string) : option error * Host :=
  if negb (reachable h) then (Some unreachable, h)
  else match container h with
       | None => (Some noSuchContainer, h)
       | Some true => (None, withContainer (Some false) h)
       | Some false => (Some (ErrDaemon "Container is not running"), h)
       end.

Definition wait (h : Host) (timeout : Z) (id : string) (c : WaitCondition)
  : WaitResult * Host :=
  if negb (reachable h) then (errChan (Some unreachable), h)
  else match container h with
       | None => (errChan (Some noSuchContainer), h)
       | Some true => (ctx_Done, h)
       | Some false => (okChan, h)
       end.

Definition attach (h : Host) (id : string) (o : ContainerAttachOptions)
  : (error + nat) * Host :=
  if negb (reachable h) then (inl unreachable, h)
  else match container h with
       | None => (inl noSuchContainer, h)
       | Some _ => (inr 1%nat, h)
       end.

Definition logs (h : Host) (id : string) (o : ContainerLogsOptions)
  : option error * Host :=
  if negb (reachable h) then (Some unreachable, h)
  else match container h with
       | None => (Some noSuchContainer, h)
       | Some _ => (None, h)
       end.

Definition pull (h : Host) (timeout : Z) (image : string) (o : ImagePullOptions)
  : (error + option error) * Host :=
  if negb (reachable h) then (inl unreachable, h)
  else if registry h
       then (inr None,
             mkHost (reachable h) (container h) ({| RepoTags := [image] |} :: images h)
                    (registry h) (obeys h))
       else (inl (ErrDaemon "registry request timed out"), h).

Definition listImages (h : Host) (timeout : Z) : error + list ImageSummary :=
  if negb (reachable h) then inl unreachable else inr (images h).

(** A command written to the console stops the process when it obeys. *)
Definition write (h : Host) (conn : nat) (data : string) : option error * Host :=
  match container h with
  | Some true => (None, if obeys h then withContainer (Some false) h else h)
  | _ => (Some (ErrDaemon "write on closed connection"), h)
  end.

#[global] Instance client : APIClient Host := {
  ContainerInspect := inspect;
  ContainerRemove := remove;
  ContainerCreate := create;
  ContainerStart := start;
  ContainerStop := stop;
  ContainerKill := kill;
  ContainerWait := wait;
  ContainerAttach := attach;
  ContainerLogs := logs;
  ImagePull := pull;
  ImageList := listImages;
  ConnWrite := write
}.

(** The log file of a container exists as long as the container does. *)
#[global] Instance os : OS Host := {
  os_Stat := fun h path =>
    match container h with
    | Some _ => None
    | None => Some (ErrPath "no such file or directory")
    end;
  os_Truncate := fun h path size => (None, h)
}.

#[global] Instance daemon : Daemon := {
  config_Get := {| Docker_Domainname := "";
                   System_User_Uid := 988;
                   Docker_Network_Dns := ["1.1.1.1"; "1.0.0.1"];
                   Docker_Network_Mode := "pterodactyl_nw";
                   Docker_Registries := [] |};
  Base64 := fun c => (Username c ++ ":" ++ Password c, None)
}.

Definition gameImage : string := "quay.io/pterodactyl/core:java".

Definition server (s : ProcessState) (attached : option nat) : Environment :=
  {| Id := "1a7ce997-259b-452e-8b4e-cecc464142ca";
     image := gameImage;
     invocation := "java -jar server.jar";
     meta_Stop := {| Stop_Type := ProcessStopCommand; Stop_Value := "stop" |};
     configuration := {| Exposed := ["25565/tcp"];
                         Bindings := [("25565/tcp", ["0.0.0.0:25565"])];
                         EnvironmentVariables := fun inv => ["STARTUP=" ++ inv];
                         Mounts := [];
                         resources := [("Memory", 1024000000)] |};
     st := s;
     stream := attached |}.

(** A healthy host: daemon and registry answer, the image is local. *)
Definition healthy (c : option bool) : Host :=
  mkHost true c [{| RepoTags := [gameImage] |}] true true.

(** *** Worlds used in the examples *)

(** The daemon was restarted while the process kept running: the
    environment starts in Offline and the container runs. *)
Definition recovered : World (Host := Host) :=
  mkWorld (server ProcessOfflineState None) (healthy (Some true)).

(** A stopped server whose container exists. *)
Definition stopped : World (Host := Host) :=
  mkWorld (server ProcessOfflineState None) (healthy (Some false)).

(** A running server, attached, while the daemon cannot be reached. *)
Definition cutOff : World (Host := Host) :=
  mkWorld (server ProcessRunningState (Some 1%nat)) (mkHost false (Some true) [] true true).

(** No container, the registry does not answer and the image is not
    local: OnBeforeStart fails in the creation of the container. *)
Definition noImage : World (Host := Host) :=
  mkWorld (server ProcessOfflineState None) (mkHost true None [] false true).

(** A running server that is not attached. *)
Definition running : World (Host := Host) :=
  mkWorld (server ProcessRunningState None) (healthy (Some true)).

(** A running, attached server whose container is already gone. *)
Definition gone : World (Host := Host) :=
  mkWorld (server ProcessRunningState (Some 1%nat)) (healthy None).

(** A running, attached server whose process ignores the stop command. *)
Definition stubborn : World (Host := Host) :=
  mkWorld (server ProcessRunningState (Some 1%nat)) (mkHost true (Some true) [] true false).

(** No container, the registry does not answer, the image is local. *)
Definition offlineRegistry : World (Host := Host) :=
  mkWorld (server ProcessOfflineState None) (mkHost true None [{| RepoTags := [gameImage] |}] false true).

End Sim.

(** ** installer.go *)

Module Installer.

#[local] Set Warnings "-register-all".

(** The request body.  [jsonparser] reads values out of the raw bytes; the
    model works on the document those bytes denote.  An object keeps its
    members in order: a lookup returns the first member with the key. *)
Inductive json : Type :=
| JNull
| JBool (b : bool)
| JNumber (n : Z)                    (* an integer literal *)
| JFloat (literal : string)         (* a literal with a fraction or an exponent *)
| JString (s : string)
| JArray (items : list json)
| JObject (members : list (string * json)).

Fixpoint member (key : string) (members : list (string * json)) : option json :=
  match members with
  | [] => None
  | (k, v) :: rest => if String.eqb k key then Some v else member key rest
  end.

(** [jsonparser.Get]: [None] stands for the key-path-not-found error. *)
Fixpoint jsonparser_Get (data : json) (keys : list string) : option json :=
  match keys with
  | [] => Some data
  | k :: ks =>
      match data with
      | JObject members =>
          match member k members with
          | Some v => jsonparser_Get v ks
          | None => None
          end
      | _ => None
      end
  end.

(** [jsonparser.GetString] and [jsonparser.GetInt] fail on a missing path
    and on a value of another type; [GetInt] also on a number outside
    int64.  The wrappers of the installer drop the error and keep the zero
    value. *)
Definition getString (data : json) (key : list string) : string :=
  match jsonparser_Get data key with
  | Some (JString s) => s
  | _ => ""
  end.

Definition getInt (data : json) (key : list string) : Z :=
  match jsonparser_Get data key with
  | Some (JNumber n) => if (- 2 ^ 63 <=? n) && (n <? 2 ^ 63) then n else 0
  | _ => 0
  end.

(** [govalidator.IsUUIDv4]: the pattern
    [^[0-9a-f]{8}-[0-9a-f]{4}-4[0-9a-f]{3}-[89ab][0-9a-f]{3}-[0-9a-f]{12}$]. *)
Inductive charClass : Type := hex | dash | four | variant.

Definition inClass (cl : charClass) (c : ascii) : bool :=
  let n := nat_of_ascii c in
  match cl with
  | hex => ((48 <=? n) && (n <=? 57) || (97 <=? n) && (n <=? 102))%nat
  | dash => (n =? 45)%nat
  | four => (n =? 52)%nat
  | variant => ((n =? 56) || (n =? 57) || (n =? 97) || (n =? 98))%nat
  end.

Fixpoint matchClasses (p : list charClass) (s : string) : bool :=
  match p, s with
  | [], EmptyString => true
  | cl :: p', String c s' => inClass cl c && matchClasses p' s'
  | _, _ => false
  end.

Definition UUID4 : list charClass :=
  (repeat hex 8 ++ [dash] ++ repeat hex 4 ++ [dash; four] ++ repeat hex 3 ++
   [dash; variant] ++ repeat hex 3 ++ [dash] ++ repeat hex 12)%list.

Definition IsUUIDv4 (s : string) : bool := matchClasses UUID4 s.

(** [environment.Limits] and [server.Configuration], as far as the
    constructor fills them. *)
Record Limits : Type := {
  MemoryLimit : Z;
  Swap : Z;
  IoWeight : Z;
  CpuLimit : Z;
  DiskSpace : Z;
  Threads : string
}.

Record Allocations : Type := {
  DefaultMapping_Ip : string;
  DefaultMapping_Port : Z;
  Mappings : list (string * list Z)
}.

Record Configuration : Type := {
  Uuid : string;
  Suspended : bool;
  Invocation : string;
  Build : Limits;
  CrashDetectionEnabled : bool;
  Allocs : Allocations;
  EnvVars : list (string * json);
  Container_Image : string
}.

Definition set_DefaultMapping (ip : string) (port : Z) (cfg : Configuration) : Configuration :=
  {| Uuid := Uuid cfg; Suspended := Suspended cfg; Invocation := Invocation cfg;
     Build := Build cfg; CrashDetectionEnabled := CrashDetectionEnabled cfg;
     Allocs := {| DefaultMapping_Ip := ip; DefaultMapping_Port := port;
                  Mappings := Mappings (Allocs cfg) |};
     EnvVars := EnvVars cfg; Container_Image := Container_Image cfg |}.

Definition set_EnvVars (v : list (string * json)) (cfg : Configuration) : Configuration :=
  {| Uuid := Uuid cfg; Suspended := Suspended cfg; Invocation := Invocation cfg;
     Build := Build cfg; CrashDetectionEnabled := CrashDetectionEnabled cfg;
     Allocs := Allocs cfg; EnvVars := v; Container_Image := Container_Image cfg |}.

Definition set_Mappings (m : list (string * list Z)) (cfg : Configuration) : Configuration :=
  {| Uuid := Uuid cfg; Suspended := Suspended cfg; Invocation := Invocation cfg;
     Build := Build cfg; CrashDetectionEnabled := CrashDetectionEnabled cfg;
     Allocs := {| DefaultMapping_Ip := DefaultMapping_Ip (Allocs cfg);
                  DefaultMapping_Port := DefaultMapping_Port (Allocs cfg);
                  Mappings := m |};
     EnvVars := EnvVars cfg; Container_Image := Container_Image cfg |}.

Definition set_Container_Image (i : string) (cfg : Configuration) : Configuration :=
  {| Uuid := Uuid cfg; Suspended := Suspended cfg; Invocation := Invocation cfg;
     Build := Build cfg; CrashDetectionEnabled := CrashDetectionEnabled cfg;
     Allocs := Allocs cfg; EnvVars := EnvVars cfg; Container_Image := i |}.

(** What the constructor calls outside this file: [json.Unmarshal] on the
    raw value [jsonparser.Get] returned, into the variables map and into
    the mappings map; the Panel request [GetServerConfiguration], whose
    three results are the configuration, the error response of the Panel
    (its [String()]) and the transport error; and
    [server.FromConfiguration]. *)
Class Collaborators (Response Server : Type) : Type := {
  Unmarshal_Variables : json -> error + list (string * json);
  Unmarshal_Mappings : json -> error + list (string * list Z);
  GetServerConfiguration : string -> option Response * option string * option error;
  FromConfiguration : option Response -> option Server * option error
}.

Record Installer (Server : Type) : Type := {
  server : option Server
}.
Arguments server {Server} _.

Definition isValidationError (e : error) : bool :=
  match e with
  | ValidationError _ => true
  | _ => false
  end.

Section New.

Context {Response Server : Type} {ext : Collaborators Response Server}.

(** [New], lines 73-88: the request to the Panel and the construction of
    the server. *)
Definition fromPanel (uuid : string) : option (Installer Server) * option error :=
  let '(c, rerr, err) := GetServerConfiguration uuid in
  match err, rerr with
  | Some err, _ => (None, Some (WithStack err))
  | None, Some rerr => (None, Some (errors_New rerr))
  | None, None =>
      let (s, err) := FromConfiguration c in
      (Some {| server := s |}, err)
  end.

Definition New (data : json) : option (Installer Server) * option error :=
  if negb (IsUUIDv4 (getString data ["uuid"])) then
    (None, Some (ValidationError "uuid provided was not in a valid format"))
  else if negb (IsUUIDv4 (getString data ["service"; "egg"])) then
    (None, Some (ValidationError "service egg provided was not in a valid format"))
  else
    let cfg :=
      {| Uuid := getString data ["uuid"];
         Suspended := false;
         Invocation := getString data ["invocation"];
         Build := {| MemoryLimit := getInt data ["build"; "memory"];
                     Swap := getInt data ["build"; "swap"];
                     IoWeight := getInt data ["build"; "io"] mod 2 ^ 16;
                     CpuLimit := getInt data ["build"; "cpu"];
                     DiskSpace := getInt data ["build"; "disk"];
                     Threads := getString data ["build"; "threads"] |};
         CrashDetectionEnabled := true;
         Allocs := {| DefaultMapping_Ip := ""; DefaultMapping_Port := 0; Mappings := [] |};
         EnvVars := [];
         Container_Image := "" |} in
    let cfg := set_DefaultMapping (getString data ["allocations"; "default"; "ip"])
                                  (getInt data ["allocations"; "default"; "port"]) cfg in
    match jsonparser_Get data ["environment"] with
    | None => (None, Some (WithStack KeyPathNotFoundError))
    | Some b =>
        match Unmarshal_Variables b with
        | inl err => (None, Some (WithStack err))
        | inr vars =>
            let cfg := set_EnvVars vars cfg in
            match jsonparser_Get data ["allocations"; "mappings"] with
            | None => (None, Some (WithStack KeyPathNotFoundError))
            | Some b =>
                match Unmarshal_Mappings b with
                | inl err => (None, Some (WithStack err))
                | inr m =>
                    let cfg := set_Mappings m cfg in
                    let cfg := set_Container_Image (getString data ["container"; "image"]) cfg in
                    fromPanel (Uuid cfg)
                end
            end
        end
    end.

(** Whether the two maps the constructor decodes are present and
    decodable: [environment] and [allocations.mappings]. *)
Definition mapsDecode (data : json) : bool :=
  match jsonparser_Get data ["environment"] with
  | None => false
  | Some b =>
      match Unmarshal_Variables b with
      | inl _ => false
      | inr _ =>
          match jsonparser_Get data ["allocations"; "mappings"] with
          | None => false
          | Some b' =>
              match Unmarshal_Mappings b' with
              | inl _ => false
              | inr _ => true
              end
          end
      end
  end.

End New.

(** *** A Panel and decoders to run the constructor on concrete requests

    The decoders are exact on objects, arrays, numbers and null.  A member
    given as a string reaches [json.Unmarshal] without its quotes, so the
    code decodes the text inside it; the example decoders do not parse
    that text and reject the member. *)

Definition decodeVariables (b : json) : error + list (string * json) :=
  match b with
  | JObject members => inr members
  | JNull => inr []
  | _ => inl (UnmarshalError "json: cannot unmarshal into Go value of type environment.Variables")
  end.

Definition decodePorts (b : json) : option (list Z) :=
  match b with
  | JArray items =>
      fold_right (fun item acc =>
                    match item, acc with
                    | JNumber n, Some ports =>
                        if (- 2 ^ 63 <=? n) && (n <? 2 ^ 63) then Some (n :: ports)
                        else None
                    | _, _ => None
                    end) (Some []) items
  | JNull => Some []
  | _ => None
  end.

Definition decodeMappings (b : json) : error + list (string * list Z) :=
  match b with
  | JObject members =>
      fold_right (fun kv acc =>
                    match decodePorts (snd kv), acc with
                    | Some ports, inr m => inr ((fst kv, ports) :: m)
                    | _, inl err => inl err
                    | None, _ => inl (UnmarshalError "json: cannot unmarshal into Go value of type []int")
                    end) (inr []) members
  | JNull => inr []
  | _ => inl (UnmarshalError "json: cannot unmarshal into Go value of type map[string][]int")
  end.

(** A Panel that knows one server; the server object is the fetched image
    reference paired with the uuid. *)
Definition knownServer : string := "1a7ce997-259b-452e-8b4e-cecc464142ca".
Definition knownEgg : string := "5a7cb1d4-1c2e-4b9e-9d6a-0f3e2a1b4c5d".

#[global] Instance examplePanel : Collaborators (string * string) (string * string) := {
  Unmarshal_Variables := decodeVariables;
  Unmarshal_Mappings := decodeMappings;
  GetServerConfiguration := fun uuid =>
    if String.eqb uuid knownServer
    then (Some (uuid, "quay.io/pterodactyl/core:java"), None, None)
    else (None, Some "NotFoundHttpException: server not found (HTTP/404)", None);
  FromConfiguration := fun c =>
    match c with
    | Some c => (Some c, None)
    | None => (None, Some (errors_New "nil configuration"))
    end
}.

Definition request (environment mappings : list (string * json)) (extra : list (string * json)) : json :=
  JObject ([("uuid", JString knownServer);
            ("service", JObject [("egg", JString knownEgg)])] ++ environment ++ mappings ++ extra)%list.

(** A complete request, and one that differs from it in every field but
    the two identifiers. *)
Definition completeRequest : json :=
  request [("environment", JObject [("SERVER_JARFILE", JString "server.jar")])]
          [("allocations", JObject [("default", JObject [("ip", JString "10.0.0.2"); ("port", JNumber 25565)]);
                                    ("mappings", JObject [("10.0.0.2", JArray [JNumber 25565])])])]
          [("invocation", JString "java -jar server.jar");
           ("build", JObject [("memory", JNumber 1024); ("io", JNumber 500)]);
           ("container", JObject [("image", JString "quay.io/pterodactyl/core:java")])].

Definition otherRequest : json :=
  request [("environment", JObject [])]
          [("allocations", JObject [("mappings", JObject [])])]
          [("invocation", JString "sh -c id");
           ("build", JObject [("memory", JNumber 999999); ("io", JNumber 70000)]);
           ("container", JObject [("image", JString "docker.io/library/alpine:latest")])].

(** A request with both identifiers and nothing else. *)
Definition bareRequest : json := request [] [] [].

End Installer.

(** ** A host that answers from a script

    The answers to the inspection, to the pull and to the list of images
    are held by the host; every other request fails.  It exercises the
    combinations of failures the reference host does not produce. *)

Module Canned.

Record Host : Type := mkHost {
  inspectAnswer : error + ContainerJSON;
  pullAnswer : error + option error;
  listAnswer : error + list ImageSummary
}.

Definition refused : error := ErrDaemon "request refused".

#[global] Instance client : APIClient Host := {
  ContainerInspect := fun h id => inspectAnswer h;
  ContainerRemove := fun h id o => (Some refused, h);
  ContainerCreate := fun h conf hostConf name => (Some refused, h);
  ContainerStart := fun h timeout id => (Some refused, h);
  ContainerStop := fun h id timeout => (Some refused, h);
  ContainerKill := fun h id sig => (Some refused, h);
  ContainerWait := fun h timeout id c => (errChan (Some refused), h);
  ContainerAttach := fun h id o => (inl refused, h);
  ContainerLogs := fun h id o => (Some refused, h);
  ImagePull := fun h timeout image o => (pullAnswer h, h);
  ImageList := fun h timeout => listAnswer h;
  ConnWrite := fun h conn data => (Some refused, h)
}.

(** The container is missing, the registry and the image store fail. *)
Definition brokenStore : World (Host := Host) :=
  mkWorld (Sim.server ProcessOfflineState None)
          (mkHost (inl (ErrNotFound "No such container"))
                  (inl (ErrDaemon "registry request timed out"))
                  (inl (ErrDaemon "image store unavailable"))).

End Canned.

(** ** A host whose process outlives the deadline

    The stop request is accepted, the wait for the container runs into its
    deadline, and the process exits right after: the inspection that
    follows finds the container stopped. *)

Module Slow.

Record Host : Type := mkHost {
  running : bool
}.

Definition refused : error := ErrDaemon "request refused".

#[global] Instance client : APIClient Host := {
  ContainerInspect := fun h id => inr {| State_Running := running h; LogPath := "" |};
  ContainerRemove := fun h id o => (Some refused, h);
  ContainerCreate := fun h conf hostConf name => (Some refused, h);
  ContainerStart := fun h timeout id => (Some refused, h);
  ContainerStop := fun h id timeout => (None, h);
  ContainerKill := fun h id sig =>
    if running h then (None, mkHost false)
    else (Some (ErrDaemon "Container is not running"), h);
  ContainerWait := fun h timeout id c =>
    if running h then (ctx_Done, mkHost false) else (okChan, h);
  ContainerAttach := fun h id o => (inl refused, h);
  ContainerLogs := fun h id o => (Some refused, h);
  ImagePull := fun h timeout image o => (inl refused, h);
  ImageList := fun h timeout => inl refused;
  ConnWrite := fun h conn data => (Some refused, h)
}.

(** A running server, not attached, on such a host. *)
Definition lingering : World (Host := Host) :=
  mkWorld (Sim.server ProcessRunningState None) (mkHost true).

End Slow.

(** ** The rest of the container file: convertMounts and InSituUpdate *)

Inductive mount_Type : Type :=
| TypeBind
| TypeVolume
| TypeTmpfs.

Record mount_Mount : Type := {
  mount_Type_ : mount_Type;
  mount_Source : string;
  mount_Target : string;
  mount_ReadOnly : bool
}.

(** [convertMounts]: the loop appends one bind mount per configured mount
    to a slice that starts out nil. *)
Definition convertMounts (e : Environment) : list mount_Mount :=
  fold_left
    (fun out m =>
       (out ++ [{| mount_Type_ := TypeBind;
                   mount_Source := Mount_Source m;
                   mount_Target := Mount_Target m;
                   mount_ReadOnly := Mount_ReadOnly m |}])%list)
    (Mounts (configuration e)) [].

Record UpdateConfig : Type := {
  Update_Resources : list (string * Z)
}.

Inductive UpdateRequest : Type :=
| ContainerUpdateReq (timeout : Z) (id : string) (u : UpdateConfig).

(** The update request of the Docker client. *)
Class UpdateClient (Host : Type) : Type := {
  ContainerUpdate : Host -> Z -> string -> UpdateConfig -> option error * Host
}.

Section InSitu.

Context {Host : Type} {client : APIClient Host} {updater : UpdateClient Host}.

(** [InSituUpdate], by explicit state passing: the error returned, the
    world left behind and the update requests sent. *)
Definition InSituUpdate (w : World (Host := Host))
  : option error * World (Host := Host) * list UpdateRequest :=
  match ContainerInspect (host w) (Id (env w)) with
  | inl err =>
      if IsErrNotFound err then (None, w, [])
      else (Some (WithStack err), w, [])
  | inr _ =>
      let u := {| Update_Resources := resources (configuration (env w)) |} in
      let timeout := time_Second * 10 in
      let r := ContainerUpdate (host w) timeout (Id (env w)) u in
      let w' := mkWorld (env w) (snd r) in
      match fst r with
      | Some err => (Some (WithStack err), w', [ContainerUpdateReq timeout (Id (env w)) u])
      | None => (None, w', [ContainerUpdateReq timeout (Id (env w)) u])
      end
  end.

End InSitu.

(** The reference host applies an update to an existing container. *)
#[global] Instance Sim_updater : UpdateClient Sim.Host := {
  ContainerUpdate := fun h timeout id u =>
    if negb (Sim.reachable h) then (Some Sim.unreachable, h)
    else match Sim.container h with
         | None => (Some Sim.noSuchContainer, h)
         | Some _ => (None, h)
         end
}.

(** * Properties of the environment *)

Section Properties.

Context {Host : Type} {client : APIClient Host} {os : OS Host} {daemon : Daemon}.

Lemma stateChanges_app (l1 l2 : list Effect) :
  stateChanges (l1 ++ l2) = (stateChanges l1 ++ stateChanges l2)%list.
Proof.
  induction l1 as [|ef l1 IH]; simpl; [reflexivity|].
  destruct ef; simpl; rewrite IH; reflexivity.
Qed.

Lemma requests_app (l1 l2 : list Effect) :
  requests (l1 ++ l2) = (requests l1 ++ requests l2)%list.
Proof.
  induction l1 as [|ef l1 IH]; simpl; [reflexivity|].
  destruct ef; simpl; rewrite IH; reflexivity.
Qed.

Lemma ProcessState_eqb_eq (a b : ProcessState) :
  ProcessState_eqb a b = true <-> a = b.
Proof. destruct a, b; simpl; split; congruence. Qed.

(** *** Quiet computations *)

Lemma quiet_ret {A} (a : A) : quiet (Host := Host) (ret a).
Proof. intro w; split; reflexivity. Qed.

Lemma quiet_bind {A B} (m : M (Host := Host) A) (f : A -> M B) :
  quiet m -> (forall a, quiet (f a)) -> quiet (bind m f).
Proof.
  intros Hm Hf w. unfold bind; simpl.
  destruct (Hm w) as [s1 c1].
  destruct (Hf (value (m w)) (world (m w))) as [s2 c2].
  rewrite stateChanges_app, c1, c2, s2, s1. split; reflexivity.
Qed.

Lemma quiet_getEnv : quiet (Host := Host) getEnv.
Proof. intro w; split; reflexivity. Qed.

Lemma quiet_ask {R} (q : Host -> R) : quiet (ask q).
Proof. intro w; split; reflexivity. Qed.

Lemma quiet_send {R} (r : Request) (f : Host -> R * Host) : quiet (send r f).
Proof. intro w; split; reflexivity. Qed.

Lemma quiet_log (l : Level) (msg : string) : quiet (Host := Host) (emit (Logged l msg)).
Proof. intro w; split; reflexivity. Qed.

Lemma quiet_go (g : Goroutine) : quiet (Host := Host) (emit (Go g)).
Proof. intro w; split; reflexivity. Qed.

Lemma quiet_SetStream (s : option nat) : quiet (Host := Host) (SetStream s).
Proof. intro w; split; reflexivity. Qed.

Create HintDb quiet.

#[local] Hint Resolve quiet_ret quiet_getEnv quiet_ask quiet_send quiet_log quiet_go
  quiet_SetStream : quiet.

Ltac quiet_step :=
  match goal with
  | |- quiet (bind _ _) => apply quiet_bind
  | |- forall _, _ => intro
  | |- quiet (match ?x with _ => _ end) => destruct x
  | |- _ => solve [auto with quiet]
  end.

Ltac quiet_tac := repeat quiet_step.

Lemma quiet_IsAttached : quiet (Host := Host) IsAttached.
Proof. unfold IsAttached. quiet_tac. Qed.

Lemma quiet_SendCommand (c : string) : quiet (SendCommand c).
Proof. unfold SendCommand. quiet_tac. Qed.

Lemma quiet_Exists : quiet Exists.
Proof. unfold Exists. quiet_tac. Qed.

Lemma quiet_ensureImageExists (image : string) : quiet (ensureImageExists image).
Proof. unfold ensureImageExists. quiet_tac. Qed.

#[local] Hint Resolve quiet_IsAttached quiet_SendCommand quiet_Exists
  quiet_ensureImageExists : quiet.

Lemma quiet_Create (invocation : string) : quiet (Create invocation).
Proof. unfold Create. quiet_tac. Qed.

Lemma quiet_followOutput : quiet followOutput.
Proof. unfold followOutput. quiet_tac. Qed.

#[local] Hint Resolve quiet_Create quiet_followOutput : quiet.

Lemma quiet_Attach : quiet Attach.
Proof. unfold Attach. quiet_tac. Qed.

Lemma quiet_OnBeforeStart : quiet OnBeforeStart.
Proof. unfold OnBeforeStart. quiet_tac. Qed.

#[local] Hint Resolve quiet_Attach quiet_OnBeforeStart : quiet.


(** *** Stepping through a bind *)

Lemma value_bind {A B} (m : M (Host := Host) A) (f : A -> M B) w :
  value (bind m f w) = value (f (value (m w)) (world (m w))).
Proof. reflexivity. Qed.

Lemma world_bind {A B} (m : M (Host := Host) A) (f : A -> M B) w :
  world (bind m f w) = world (f (value (m w)) (world (m w))).
Proof. reflexivity. Qed.

Lemma effects_bind {A B} (m : M (Host := Host) A) (f : A -> M B) w :
  effects (bind m f w) = (effects (m w) ++ effects (f (value (m w)) (world (m w))))%list.
Proof. reflexivity. Qed.

Lemma setState_st (s : ProcessState) (w : World (Host := Host)) :
  st (env (world (setState s w))) = s.
Proof.
  unfold setState, bind, getEnv, putEnv, emit, ret; simpl.
  destruct (ProcessState_eqb (st (env w)) s) eqn:E; simpl; [|reflexivity].
  apply ProcessState_eqb_eq; assumption.
Qed.

Lemma setState_changes (s : ProcessState) (w : World (Host := Host)) :
  stateChanges (effects (setState s w)) =
  if ProcessState_eqb (st (env w)) s then [] else [(st (env w), s)].
Proof.
  unfold setState, bind, getEnv, putEnv, emit, ret; simpl.
  destruct (ProcessState_eqb (st (env w)) s); reflexivity.
Qed.

Lemma setState_effects (s : ProcessState) (w : World (Host := Host)) :
  effects (setState s w) =
  if ProcessState_eqb (st (env w)) s then [] else [StateChange (st (env w)) s].
Proof.
  unfold setState, bind, getEnv, putEnv, emit, ret; simpl.
  destruct (ProcessState_eqb (st (env w)) s); reflexivity.
Qed.

Lemma setState_host (s : ProcessState) (w : World (Host := Host)) :
  host (world (setState s w)) = host w.
Proof.
  unfold setState, bind, getEnv, putEnv, emit, ret; simpl.
  destruct (ProcessState_eqb (st (env w)) s); reflexivity.
Qed.

Lemma setState_Id (s : ProcessState) (w : World (Host := Host)) :
  Id (env (world (setState s w))) = Id (env w).
Proof.
  unfold setState, bind, getEnv, putEnv, emit, ret; simpl.
  destruct (ProcessState_eqb (st (env w)) s); reflexivity.
Qed.

(** A quiet continuation adds nothing to the state changes. *)
Lemma bind_quiet_r {A B} (m : M (Host := Host) A) (f : A -> M B) w :
  (forall a, quiet (f a)) ->
  st (env (world (bind m f w))) = st (env (world (m w))) /\
  stateChanges (effects (bind m f w)) = stateChanges (effects (m w)).
Proof.
  intros Hf. destruct (Hf (value (m w)) (world (m w))) as [s c].
  rewrite world_bind, effects_bind, stateChanges_app, c, s, app_nil_r.
  split; reflexivity.
Qed.

(** *** Computations that write only some states *)

Lemma writesOnly_quiet {A} T (m : M (Host := Host) A) : quiet m -> writesOnly T m.
Proof. intros Hm w. destruct (Hm w) as [_ c]. rewrite c. constructor. Qed.

Lemma writesOnly_bind {A B} T (m : M (Host := Host) A) (f : A -> M B) :
  writesOnly T m -> (forall a, writesOnly T (f a)) -> writesOnly T (bind m f).
Proof.
  intros Hm Hf w. rewrite effects_bind, stateChanges_app.
  apply Forall_app. split; [apply Hm | apply Hf].
Qed.

Lemma writesOnly_setState T (s : ProcessState) :
  T s = true -> writesOnly (Host := Host) (A := unit) T (setState s).
Proof.
  intros Ts w. rewrite setState_changes.
  destruct (ProcessState_eqb (st (env w)) s) eqn:E; constructor; [|constructor].
  simpl. split; [|assumption].
  intro Heq. apply ProcessState_eqb_eq in Heq. congruence.
Qed.

Lemma writesOnly_weaken {A} (T U : ProcessState -> bool) (m : M (Host := Host) A) :
  (forall s, T s = true -> U s = true) -> writesOnly T m -> writesOnly U m.
Proof.
  intros HTU Hm w. eapply Forall_impl; [|apply Hm].
  intros p [Hne HT]. split; auto.
Qed.

Ltac writes_step :=
  match goal with
  | |- writesOnly _ (setState _) => apply writesOnly_setState; reflexivity
  | |- writesOnly _ (bind _ _) => apply writesOnly_bind
  | |- forall _, _ => intro
  | |- writesOnly _ (match ?x with _ => _ end) => destruct x
  | |- writesOnly _ _ => solve [apply writesOnly_quiet; auto with quiet]
  end.

Ltac writes_tac := repeat writes_step.

Lemma writesOnly_Terminate (signal : Signal) :
  writesOnly stoppingOrOffline (Terminate signal).
Proof. unfold Terminate. writes_tac. Qed.

Lemma writesOnly_Stop : writesOnly stoppingOrOffline Stop.
Proof.
  unfold Stop. writes_tac; try apply writesOnly_Terminate.
Qed.

Lemma writesOnly_WaitForStop (seconds : Z) (terminate : bool) :
  writesOnly stoppingOrOffline (WaitForStop seconds terminate).
Proof.
  unfold WaitForStop. writes_tac;
    try apply writesOnly_Stop; try apply writesOnly_Terminate.
Qed.

Lemma writesOnly_Destroy : writesOnly stoppingOrOffline Destroy.
Proof. unfold Destroy. writes_tac. Qed.

Lemma writesOnly_attachStreamClosed :
  writesOnly (Host := Host) offlineOnly attachStreamClosed.
Proof. unfold attachStreamClosed. writes_tac. Qed.

(** *** The state changes of [Start] *)

Lemma Start_inspect_next w :
  value (Start_inspect w) = Next ->
  env (world (Start_inspect w)) = env w /\
  stateChanges (effects (Start_inspect w)) = [].
Proof.
  unfold Start_inspect, bind, getEnv, ask, ret, send.
  cbn [value world effects env host].
  destruct (ContainerInspect (host w) (Id (env w))) as [err|c].
  - destruct (negb (IsErrNotFound err)); cbn; [discriminate|auto].
  - destruct (State_Running c); cbn [value world effects env host]; [discriminate|].
    destruct (os_Stat (host w) (LogPath c));
      cbn [value world effects env host fst snd]; [auto|].
    destruct (fst (os_Truncate (host w) (LogPath c) 0)); cbn; [discriminate|auto].
Qed.

Lemma Start_inspect_next_guard w :
  value (Start_inspect w) = Next ->
  entryGuard OpStart w =
  match st (env w) with
  | ProcessOfflineState | ProcessStartingState => true
  | _ => false
  end.
Proof.
  unfold Start_inspect, entryGuard, bind, getEnv, ask, ret, send.
  cbn [value world effects env host].
  destruct (ContainerInspect (host w) (Id (env w))) as [err|c].
  - destruct (IsErrNotFound err); cbn; [auto|discriminate].
  - destruct (State_Running c); cbn [value world effects env host]; [discriminate|auto].
Qed.

Lemma Start_inspect_changes w :
  stateChanges (effects (Start_inspect w)) =
  match ContainerInspect (host w) (Id (env w)) with
  | inr c =>
      if State_Running c
      then stateChanges (effects (setState ProcessRunningState w))
      else []
  | inl _ => []
  end.
Proof.
  unfold Start_inspect, bind, getEnv, ask, ret, send.
  cbn [value world effects env host].
  destruct (ContainerInspect (host w) (Id (env w))) as [err|c].
  - destruct (negb (IsErrNotFound err)); reflexivity.
  - destruct (State_Running c); cbn [value world effects env host].
    + rewrite app_nil_l, !stateChanges_app.
      destruct (quiet_Attach (world (setState ProcessRunningState w))) as [_ c'].
      rewrite c'. cbn. rewrite app_nil_r. reflexivity.
    + destruct (os_Stat (host w) (LogPath c)); [reflexivity|].
      cbn [value world effects env host fst snd].
      destruct (fst (os_Truncate (host w) (LogPath c) 0)); reflexivity.
Qed.

Lemma Start_boot_quiet_tail :
  forall _ : unit, quiet (Host := Host)
    (err <- OnBeforeStart;;
     match err with
     | Some err => ret (true, Some (WithStack err))
     | None =>
         e <- getEnv;;
         err <- send (ContainerStartReq (time_Second * 10) (Id e))
                     (fun h => ContainerStart h (time_Second * 10) (Id e));;
         match err with
         | Some err => ret (true, Some (WithStack err))
         | None => err <- Attach;; ret (false, err)
         end
     end).
Proof. quiet_tac. Qed.

Lemma Start_boot_spec w :
  st (env (world (Start_boot w))) = ProcessStartingState /\
  stateChanges (effects (Start_boot w)) =
  stateChanges (effects (setState ProcessStartingState w)).
Proof.
  unfold Start_boot.
  destruct (bind_quiet_r (setState ProcessStartingState) _ w Start_boot_quiet_tail)
    as [s c].
  rewrite setState_st in s. split; assumption.
Qed.

Lemma Start_changes w :
  stateChanges (effects (Start w)) =
  (stateChanges (effects (Start_inspect w)) ++
   match value (Start_inspect w) with
   | Return _ => []
   | Next =>
       stateChanges (effects (setState ProcessStartingState (world (Start_inspect w)))) ++
       (if fst (value (Start_boot (world (Start_inspect w))))
        then [(ProcessStartingState, ProcessStoppingState);
              (ProcessStoppingState, ProcessOfflineState)]
        else [])
   end)%list.
Proof.
  unfold Start. rewrite effects_bind, stateChanges_app. f_equal.
  destruct (value (Start_inspect w)) as [err|].
  - reflexivity.
  - set (w0 := world (Start_inspect w)).
    destruct (Start_boot_spec w0) as [s c].
    rewrite effects_bind, stateChanges_app, c. f_equal.
    rewrite effects_bind, stateChanges_app. cbn [ret effects stateChanges].
    rewrite app_nil_r.
    destruct (fst (value (Start_boot w0))); [|reflexivity].
    rewrite effects_bind, stateChanges_app, !setState_changes, setState_st, s.
    reflexivity.
Qed.

Lemma permitted_stopping_or_offline (op : Operation) (p : ProcessState * ProcessState) :
  op <> OpStart -> op <> OpStreamClosed ->
  fst p <> snd p -> stoppingOrOffline (snd p) = true -> permitted op p = true.
Proof.
  intros Hs Hc Hne HT. destruct p as [a b]. unfold permitted. simpl in *.
  destruct op; try congruence; destruct a, b; simpl in *; congruence.
Qed.

Lemma permitted_offline (op : Operation) (p : ProcessState * ProcessState) :
  fst p <> snd p -> offlineOnly (snd p) = true -> permitted op p = true.
Proof.
  intros Hne HT. destruct p as [a b]. unfold permitted. simpl in *.
  destruct a, b; simpl in *; congruence.
Qed.

Lemma Start_changes_permitted w :
  entryGuard OpStart w = true ->
  Forall (fun p => permitted OpStart p = true) (stateChanges (effects (Start w))).
Proof.
  intros G. rewrite Start_changes.
  destruct (value (Start_inspect w)) as [err|] eqn:V.
  - rewrite app_nil_r, Start_inspect_changes.
    unfold entryGuard in G.
    destruct (ContainerInspect (host w) (Id (env w))) as [e|c]; [constructor|].
    destruct (State_Running c); [|constructor].
    rewrite setState_changes.
    destruct (st (env w)); try discriminate;
      simpl; repeat (apply Forall_cons; [reflexivity|]); apply Forall_nil.
  - rewrite (Start_inspect_next_guard w V) in G.
    destruct (Start_inspect_next w V) as [E C].
    rewrite C, setState_changes, E.
    generalize (fst (value (Start_boot (world (Start_inspect w))))); intros saw.
    destruct (st (env w)); try discriminate; destruct saw;
      simpl; repeat (apply Forall_cons; [reflexivity|]); apply Forall_nil.
Qed.

(** C1 (amended).  The operations write the state without reading it
    first, so the table is respected under these conditions.  Every state
    change performed by the attach-stream close handler is a pair of the
    table.  Every state change performed by Stop, WaitForStop, Terminate
    or Destroy is a pair of the table or Offline to Stopping.  Every state
    change performed by Start is a pair of the table when Start is entered
    in Offline or Starting with a container that does not run yet, or in
    Starting or Running with a container that already runs. *)
Theorem state_changes_within_table (op : Operation) (w : World (Host := Host)) :
  entryGuard op w = true ->
  Forall (fun p => permitted op p = true) (stateChanges (effects (perform op w))).
Proof.
  intros G. destruct op; cbn [perform].
  - apply Start_changes_permitted; assumption.
  - eapply Forall_impl; [|apply writesOnly_Stop].
    intros p [Hne HT]. apply permitted_stopping_or_offline; auto; discriminate.
  - eapply Forall_impl; [|apply writesOnly_WaitForStop].
    intros p [Hne HT]. apply permitted_stopping_or_offline; auto; discriminate.
  - eapply Forall_impl; [|apply writesOnly_Terminate].
    intros p [Hne HT]. apply permitted_stopping_or_offline; auto; discriminate.
  - eapply Forall_impl; [|apply writesOnly_Destroy].
    intros p [Hne HT]. apply permitted_stopping_or_offline; auto; discriminate.
  - rewrite effects_bind, stateChanges_app. cbn [ret effects stateChanges].
    rewrite app_nil_r.
    eapply Forall_impl; [|apply writesOnly_attachStreamClosed].
    intros p [Hne HT]. apply permitted_offline; auto.
Qed.

(** *** Errors of [Start] *)

Lemma deferred_reset (w : World (Host := Host)) :
  st (env w) = ProcessStartingState ->
  let o := (setState ProcessStoppingState;; setState ProcessOfflineState) w in
  st (env (world o)) = ProcessOfflineState /\
  effects o = [StateChange ProcessStartingState ProcessStoppingState;
               StateChange ProcessStoppingState ProcessOfflineState].
Proof.
  intros S o. subst o.
  rewrite world_bind, effects_bind, !setState_effects, !setState_st, S.
  split; reflexivity.
Qed.

Lemma Start_after_boot w (err : option error) :
  value (Start_inspect w) = Next ->
  value (Start_boot (world (Start_inspect w))) = (true, err) ->
  value (Start w) = err /\
  st (env (world (Start w))) = ProcessOfflineState /\
  exists before,
    effects (Start w) =
    (before ++ [StateChange ProcessStartingState ProcessStoppingState;
                StateChange ProcessStoppingState ProcessOfflineState])%list.
Proof.
  intros V B.
  set (w0 := world (Start_inspect w)) in *.
  destruct (Start_boot_spec w0) as [S _].
  destruct (deferred_reset (world (Start_boot w0)) S) as [S' E'].
  unfold Start.
  rewrite value_bind, world_bind, effects_bind, V. fold w0.
  rewrite value_bind, world_bind, effects_bind, B. cbn [fst snd].
  rewrite value_bind, world_bind, effects_bind. cbn [ret value world effects].
  split; [reflexivity|]. split; [exact S'|].
  exists (effects (Start_inspect w) ++ effects (Start_boot w0))%list.
  rewrite E', app_nil_r, app_assoc. reflexivity.
Qed.

(** C2 (amended).  An execution of Start that returns the error of
    OnBeforeStart or of the container-start request returns it wrapped, in
    state Offline, the last two effects being the changes Starting to
    Stopping and Stopping to Offline.  An execution that returns the error
    of the first inspection or of the truncation of the log returns it
    wrapped with the environment as it was on entry and without any state
    change. *)
Theorem Start_failure_state (f : StartFailure) (e : error) (w : World (Host := Host)) :
  failsAt f e w ->
  value (Start w) = Some (WithStack e) /\
  match f with
  | InspectFailed | TruncateFailed =>
      env (world (Start w)) = env w /\ stateChanges (effects (Start w)) = []
  | OnBeforeStartFailed | ContainerStartFailed =>
      st (env (world (Start w))) = ProcessOfflineState /\
      exists before,
        effects (Start w) =
        (before ++ [StateChange ProcessStartingState ProcessStoppingState;
                    StateChange ProcessStoppingState ProcessOfflineState])%list
  end.
Proof.
  destruct f; cbn [failsAt].
  - intros [Hi Hn].
    unfold Start, Start_inspect, bind, getEnv, ask, ret.
    cbn [value world effects env host]. rewrite Hi, Hn.
    cbn. repeat split; reflexivity.
  - intros (c & Hi & Hr & Hs & Ht).
    unfold Start, Start_inspect, bind, getEnv, ask, ret, send.
    cbn [value world effects env host]. rewrite Hi, Hr.
    cbn [value world effects env host negb]. rewrite Hs.
    cbn [value world effects env host fst snd]. rewrite Ht.
    cbn. repeat split; reflexivity.
  - intros [V B].
    apply Start_after_boot; [assumption|].
    unfold Start_boot. rewrite value_bind, value_bind.
    fold (booting w). rewrite B. reflexivity.
  - intros (V & B & C).
    apply Start_after_boot; [assumption|].
    unfold Start_boot. rewrite value_bind, value_bind.
    fold (booting w). rewrite B.
    rewrite value_bind, value_bind. unfold getEnv, send.
    cbn [value world env host]. cbn zeta in C. rewrite C. reflexivity.
Qed.

(** *** Restart *)

(** C4.  A call of Restart behaves as WaitForStop(60, false) followed, only
    when that returned no error, by Start: same result, same final world,
    same effects in the same order.  When WaitForStop returns an error,
    the outcome of Restart is the outcome of WaitForStop, so Start is not
    invoked. *)
Theorem Restart_refines_spec (w : World (Host := Host)) :
  Restart w = Restart_spec w /\
  match value (WaitForStop 60 false w) with
  | Some err => Restart w = WaitForStop 60 false w
  | None =>
      value (Restart w) = value (Start (world (WaitForStop 60 false w))) /\
      effects (Restart w) =
      (effects (WaitForStop 60 false w) ++
       effects (Start (world (WaitForStop 60 false w))))%list
  end.
Proof.
  unfold Restart, Restart_spec, bind.
  destruct (WaitForStop 60 false w) as [v w' efs]. cbn [value world effects].
  destruct v as [err|]; cbn [ret value world effects].
  - rewrite app_nil_r. split; reflexivity.
  - repeat split; reflexivity.
Qed.

(** *** Create *)

(** C6.  When the container already exists (the inspection succeeds),
    Create returns nil, changes neither the environment nor the host and
    leaves no effect: no request is sent, so no image is pulled and no
    container is created or modified.  Create followed by Create is then
    the same as one Create. *)
Theorem Create_existing_is_noop (invocation : string) (w : World (Host := Host))
    (c : ContainerJSON) :
  ContainerInspect (host w) (Id (env w)) = inr c ->
  Create invocation w = mkOutcome None w [] /\
  requests (effects (Create invocation w)) = [] /\
  (Create invocation;; Create invocation) w = Create invocation w.
Proof.
  intros Hi.
  assert (E : Create invocation w = mkOutcome None w []).
  { unfold Create, bind, getEnv, ask, ret. cbn [value world effects env host].
    rewrite Hi. destruct w; reflexivity. }
  split; [exact E|]. split; [rewrite E; reflexivity|].
  unfold bind at 1. rewrite E. cbn [value world effects]. rewrite E. reflexivity.
Qed.

(** *** The image pull *)


Lemma ensureImageExists_pull_failed (image : string) (w : World (Host := Host))
    (perr : error) :
  fst (ImagePull (host w) pullTimeout image (imagePullOptions image)) = inl perr ->
  let pulled := snd (ImagePull (host w) pullTimeout image (imagePullOptions image)) in
  let o := ensureImageExists image w in
  world o = mkWorld (env w) pulled /\
  match ImageList pulled pullTimeout with
  | inl ierr => value o = Some ierr
  | inr images =>
      if existsLocally image images
      then value o = None /\
           In (Logged Warn
                 "unable to pull requested image from remote source, however the image exists locally")
              (effects o)
      else value o = Some perr
  end.
Proof.
  intros Hp pulled o. subst o pulled.
  unfold ensureImageExists, bind, send, ask, ret, emit.
  destruct (registryAuth image) as [c|]; [destruct (snd (Base64 c))|];
    cbn [value world effects env host]; rewrite Hp;
    cbn [value world effects env host];
    (split; [destruct (ImageList _ pullTimeout) as [ierr|images];
               [|destruct (existsLocally image images)]; reflexivity|]);
    (destruct (ImageList _ pullTimeout) as [ierr|images];
       [reflexivity|destruct (existsLocally image images); [|reflexivity]]);
    (split; [reflexivity|]); cbn [value world effects env host];
    simpl; repeat (first [left; reflexivity | right]).
Qed.



(** *** WaitForStop *)

Lemma seconds_Duration_exact (seconds : Z) :
  -9223372036 <= seconds <= 9223372036 ->
  seconds_Duration seconds = seconds * 1000000000.
Proof.
  intros H. unfold seconds_Duration, wrap64, time_Second.
  rewrite Z.mod_small; lia.
Qed.

Lemma kill_signal_name :
  TrimSuffix (TrimPrefix (Signal_String os_Kill) "signal ") "ed" = "kill".
Proof. reflexivity. Qed.

Lemma requests_setState (s : ProcessState) (w : World (Host := Host)) :
  requests (effects (setState s w)) = [].
Proof.
  rewrite setState_effects.
  destruct (ProcessState_eqb (st (env w)) s); reflexivity.
Qed.

(** C7 (amended).  For a number of seconds from 0 to 9223372036,
    WaitForStop(seconds, terminate) calls Stop first: its effects begin
    with those of Stop, and an error of Stop is returned wrapped at once.
    Otherwise it waits for the container to be no longer running, under a
    deadline of seconds times 10^9 nanoseconds.  If the deadline passes
    first and terminate is unset, the call returns the deadline error and
    nothing follows the wait.  If the deadline passes first and terminate
    is set, the container is inspected: the kill request, with the signal
    name "kill", is sent exactly when it is inspected as running, and its
    answer is returned; a container found stopped gives nil and a failed
    inspection its error wrapped, without a kill.  If the wait ends before
    the deadline nothing follows it.  So a kill follows the wait exactly
    when the deadline passed, terminate is set and the container is still
    inspected as running. *)
Theorem WaitForStop_contract (seconds : Z) (terminate : bool)
    (w : World (Host := Host)) :
  0 <= seconds <= 9223372036 ->
  let stopped := world (Stop w) in
  let id := Id (env stopped) in
  let wait := ContainerWaitReq (seconds * 1000000000) id WaitConditionNotRunning in
  let waited := ContainerWait (host stopped) (seconds * 1000000000) id
                              WaitConditionNotRunning in
  let after := mkWorld (env stopped) (snd waited) in
  let o := WaitForStop seconds terminate w in
  match value (Stop w) with
  | Some err =>
      value o = Some (WithStack err) /\
      world o = stopped /\
      effects o = effects (Stop w)
  | None =>
      match fst waited with
      | ctx_Done =>
          if terminate
          then match ContainerInspect (host after) id with
               | inl e =>
                   value o = Some (WithStack e) /\
                   requests (effects o) = (requests (effects (Stop w)) ++ [wait])%list
               | inr c =>
                   if State_Running c
                   then value o = fst (ContainerKill (host after) id "kill") /\
                        requests (effects o) =
                          (requests (effects (Stop w)) ++
                           [wait; ContainerKillReq id "kill"])%list
                   else value o = None /\
                        requests (effects o) =
                          (requests (effects (Stop w)) ++ [wait])%list
               end
          else value o = Some (WithStack DeadlineExceeded) /\
               world o = after /\
               effects o = (effects (Stop w) ++ [Sent wait])%list
      | errChan (Some err) =>
          value o = Some (WithStack err) /\
          world o = after /\
          effects o = (effects (Stop w) ++ [Sent wait])%list
      | errChan None | okChan =>
          value o = None /\
          world o = after /\
          effects o = (effects (Stop w) ++ [Sent wait])%list
      end
  end.
Proof.
  intros Hr stopped id wait waited after o.
  subst o. unfold WaitForStop.
  rewrite value_bind, world_bind, effects_bind. fold stopped.
  rewrite (seconds_Duration_exact seconds) by lia.
  destruct (value (Stop w)) as [err|].
  { cbn [ret value world effects]. rewrite app_nil_r. repeat split. }
  unfold bind, getEnv, send, ret. cbn [value world effects env host app].
  fold id. fold waited. fold after. fold wait.
  destruct (fst waited) as [|[err|]|]; cbn [value world effects env host app];
    try (repeat split; reflexivity).
  destruct terminate; cbn [value world effects env host app];
    [|repeat split; reflexivity].
  rewrite !requests_app. cbn [requests app].
  unfold Terminate, bind, getEnv, ask, send, ret, emit.
  cbn [value world effects env host app].
  change (Id (env after)) with id.
  destruct (ContainerInspect (host after) id) as [e|c];
    cbn [value world effects env host app requests]; [split; reflexivity|].
  destruct (State_Running c); cbn [value world effects env host app negb requests];
    [|split; reflexivity].
  rewrite kill_signal_name, setState_host. cbn [host].
  rewrite !requests_app, requests_setState. cbn [requests app].
  destruct (fst (ContainerKill (host after) id "kill")) as [err|];
    cbn [value world effects env host app requests];
    rewrite ?requests_app, ?requests_setState; split; reflexivity.
Qed.

(** *** Destroy *)

Lemma Destroy_not_found_stays_stopping (w : World (Host := Host)) (e : error) :
  let opts := {| RemoveVolumes := true; RemoveLinks := false; Force := true |} in
  fst (ContainerRemove (host w) (Id (env w)) opts) = Some e ->
  IsErrNotFound e = true ->
  value (Destroy w) = None /\
  st (env (world (Destroy w))) = ProcessStoppingState /\
  In (ContainerRemoveReq (Id (env w)) opts) (requests (effects (Destroy w))).
Proof.
  intros opts Hr Hn.
  unfold Destroy, bind, getEnv, send, ret.
  cbn [value world effects env host app].
  rewrite !setState_host, !setState_Id. fold opts. rewrite Hr, Hn.
  cbn [value world effects env host app].
  split; [reflexivity|]. split; [apply setState_st|].
  rewrite requests_app. apply in_or_app. right. left. reflexivity.
Qed.

End Properties.

(** * The environment on the reference host *)



(** C1, counterexample.  Start on a container that already runs, entered
    in the initial state Offline, performs the single state change Offline
    to Running, which is not a pair of the table. *)
Lemma Start_recovery_leaves_table :
  stateChanges (effects (perform OpStart Sim.recovered)) =
    [(ProcessOfflineState, ProcessRunningState)] /\
  value (perform OpStart Sim.recovered) = None /\
  legalTransition ProcessOfflineState ProcessRunningState = false.
Proof. repeat split; reflexivity. Qed.


Lemma state_changes_within_table_witness :
  entryGuard OpStart Sim.stopped = true /\
  Forall (fun p => permitted OpStart p = true)
         (stateChanges (effects (perform OpStart Sim.stopped))).
Proof.
  split; [reflexivity|].
  apply (state_changes_within_table OpStart Sim.stopped). reflexivity.
Defined.


(** C2, counterexample.  Start returns the error of the failed inspection
    while the state is Running: it is not Offline, and it was never set to
    Stopping. *)
Lemma Start_inspect_error_keeps_state :
  value (Start Sim.cutOff) = Some (WithStack Sim.unreachable) /\
  st (env (world (Start Sim.cutOff))) = ProcessRunningState /\
  stateChanges (effects (Start Sim.cutOff)) = [].
Proof. repeat split; reflexivity. Qed.


Lemma Start_failure_state_witness :
  failsAt OnBeforeStartFailed
          (WithStack (ErrDaemon "registry request timed out")) Sim.noImage /\
  value (Start Sim.noImage) =
    Some (WithStack (WithStack (ErrDaemon "registry request timed out"))) /\
  st (env (world (Start Sim.noImage))) = ProcessOfflineState.
Proof.
  assert (H : failsAt OnBeforeStartFailed
                (WithStack (ErrDaemon "registry request timed out")) Sim.noImage)
    by (split; reflexivity).
  split; [exact H|].
  pose proof (Start_failure_state OnBeforeStartFailed _ Sim.noImage H) as [V [S _]].
  split; [exact V | exact S].
Defined.


(** C3, on the code.  Restart keeps no flag.  When a second call runs
    while the first one is between its stop and its start, both calls
    return nil; the second call sends its own stop, wait and start
    requests. *)
Lemma overlapping_Restart_runs_twice :
  value (overlappingRestarts Sim.running) = (None, None) /\
  let between := world (WaitForStop 60 false Sim.running) in
  value (Restart between) = None /\
  filter isStop (requests (effects (Restart between))) =
    [ContainerStopReq (Id (env Sim.running)) (time_Second * 10)] /\
  filter isStart (requests (effects (Restart between))) =
    [ContainerStartReq (time_Second * 10) (Id (env Sim.running))].
Proof. repeat split; reflexivity. Qed.


(** C5, on the code.  Destroy on a container that does not exist returns
    nil with the state left at Stopping: Offline is never set. *)
Lemma Destroy_missing_container_stays_stopping :
  value (Destroy Sim.gone) = None /\
  st (env (world (Destroy Sim.gone))) = ProcessStoppingState /\
  stateChanges (effects (Destroy Sim.gone)) =
    [(ProcessRunningState, ProcessStoppingState)] /\
  requests (effects (Destroy Sim.gone)) =
    [ContainerRemoveReq (Id (env Sim.gone))
       {| RemoveVolumes := true; RemoveLinks := false; Force := true |}].
Proof. repeat split; reflexivity. Qed.

Lemma Create_existing_is_noop_witness :
  ContainerInspect (host Sim.stopped) (Id (env Sim.stopped)) =
    inr {| State_Running := false; LogPath := Sim.logPath (Id (env Sim.stopped)) |} /\
  Create "java -jar server.jar" Sim.stopped = mkOutcome None Sim.stopped [].
Proof.
  split; [reflexivity|].
  pose proof (Create_existing_is_noop "java -jar server.jar" Sim.stopped
                {| State_Running := false; LogPath := Sim.logPath (Id (env Sim.stopped)) |}
                eq_refl) as [E _].
  exact E.
Defined.


(** C7, counterexample.  The process exits right after the deadline of
    the wait: the deadline has passed and terminate is set, yet
    WaitForStop sends no kill request and returns nil. *)
Lemma WaitForStop_deadline_without_kill :
  value (Stop Slow.lingering) = None /\
  fst (ContainerWait (host (world (Stop Slow.lingering))) (seconds_Duration 5)
                     (Id (env (world (Stop Slow.lingering))))
                     WaitConditionNotRunning) = ctx_Done /\
  value (WaitForStop 5 true Slow.lingering) = None /\
  filter isKill (requests (effects (WaitForStop 5 true Slow.lingering))) = [].
Proof. repeat split; reflexivity. Qed.

Lemma WaitForStop_contract_witness :
  0 <= 5 <= 9223372036 /\
  value (WaitForStop 5 false Sim.stubborn) = Some (WithStack DeadlineExceeded) /\
  filter isKill (requests (effects (WaitForStop 5 false Sim.stubborn))) = [] /\
  filter isKill (requests (effects (WaitForStop 5 true Sim.stubborn))) =
    [ContainerKillReq (Id (env Sim.stubborn)) "kill"].
Proof.
  assert (R : 0 <= 5 <= 9223372036) by lia.
  split; [exact R|].
  pose proof (WaitForStop_contract 5 false Sim.stubborn R) as P.
  pose proof (WaitForStop_contract 5 true Sim.stubborn R) as Q.
  vm_compute in P. vm_compute in Q.
  destruct P as [V [_ E]]. destruct Q as [_ E'].
  split; [vm_compute; exact V|].
  split; vm_compute; reflexivity.
Defined.



(** * Properties of the installer constructor *)

Section InstallerProperties.

Import Installer.

Context {Response Server : Type} {ext : Collaborators Response Server}.

Lemma getString_absent (data : json) (key : list string) :
  jsonparser_Get data key = None -> getString data key = "" /\ getInt data key = 0.
Proof. intros H. unfold getString, getInt. rewrite H. split; reflexivity. Qed.

Lemma fromPanel_not_validation (uuid msg : string) :
  fromPanel uuid <> (None, Some (ValidationError msg)).
Proof.
  unfold fromPanel.
  destruct (GetServerConfiguration uuid) as [[c rerr] err].
  destruct err as [err|]; [congruence|].
  destruct rerr as [rerr|]; [congruence|].
  destruct (FromConfiguration c) as [s err]. congruence.
Qed.

(** What [New] returns once both identifiers have passed the check. *)
Lemma New_past_validation (data : json) :
  IsUUIDv4 (getString data ["uuid"]) = true ->
  IsUUIDv4 (getString data ["service"; "egg"]) = true ->
  if mapsDecode data
  then New data = fromPanel (getString data ["uuid"])
  else exists err, New data = (None, Some (WithStack err)).
Proof.
  intros Hu He. unfold New, mapsDecode. rewrite Hu, He. cbn [negb].
  destruct (jsonparser_Get data ["environment"]) as [b|]; [|eauto].
  destruct (Unmarshal_Variables b) as [err|vars]; [eauto|].
  destruct (jsonparser_Get data ["allocations"; "mappings"]) as [b'|]; [|eauto].
  destruct (Unmarshal_Mappings b') as [err|m]; [eauto|].
  reflexivity.
Qed.

(** C9 (amended).  The constructor fails with a validation error exactly
    when [uuid] or [service.egg] is not a version-4 UUID.  Past that
    check, the [environment] and [allocations.mappings] members must be
    present and decodable: otherwise the constructor fails with a wrapped,
    non-validation error before the Panel is asked.  All remaining fields
    default to their zero values and never make the constructor fail: with
    the two identifiers valid and the two maps decodable the result is the
    one obtained from the Panel for the uuid. *)
Theorem New_required_fields (data : json) :
  ((exists msg, New data = (None, Some (ValidationError msg))) <->
   (IsUUIDv4 (getString data ["uuid"]) = false \/
    IsUUIDv4 (getString data ["service"; "egg"]) = false)) /\
  (if IsUUIDv4 (getString data ["uuid"]) && IsUUIDv4 (getString data ["service"; "egg"])
   then if mapsDecode data
        then New data = fromPanel (getString data ["uuid"])
        else exists err, New data = (None, Some (WithStack err))
   else True).
Proof.
  destruct (IsUUIDv4 (getString data ["uuid"])) eqn:Hu;
    [destruct (IsUUIDv4 (getString data ["service"; "egg"])) eqn:He|];
    cbn [andb]; (split; [|try exact I]).
  - split; [|intros [H|H]; discriminate].
    intros [msg H]. exfalso.
    pose proof (New_past_validation data Hu He) as P.
    destruct (mapsDecode data).
    + rewrite P in H. exact (fromPanel_not_validation _ _ H).
    + destruct P as [err P]. rewrite P in H. discriminate.
  - apply New_past_validation; assumption.
  - split; [auto|]. intros _. unfold New. rewrite Hu, He. cbn [negb]. eauto.
  - split; [auto|]. intros _. unfold New. rewrite Hu. cbn [negb]. eauto.
Qed.

Lemma New_success_from_panel (data : json) (inst : option (Installer Server)) :
  New data = (inst, None) -> New data = fromPanel (getString data ["uuid"]).
Proof.
  intros H.
  destruct (IsUUIDv4 (getString data ["uuid"])) eqn:Hu;
    [destruct (IsUUIDv4 (getString data ["service"; "egg"])) eqn:He|].
  - pose proof (New_past_validation data Hu He) as P.
    destruct (mapsDecode data); [exact P|].
    destruct P as [err P]. rewrite P in H. discriminate.
  - unfold New in H. rewrite Hu, He in H. discriminate.
  - unfold New in H. rewrite Hu in H. discriminate.
Qed.

(** C10.  Two requests that agree on [uuid] and [service.egg] and for
    which the constructor returns no error yield the same installer, hence
    the same server, whatever their other fields are; that server is the
    one [FromConfiguration] builds from the configuration the Panel
    returns for the uuid. *)
Theorem New_server_from_panel_only (data1 data2 : json)
    (inst1 inst2 : option (Installer Server)) :
  getString data1 ["uuid"] = getString data2 ["uuid"] ->
  getString data1 ["service"; "egg"] = getString data2 ["service"; "egg"] ->
  New data1 = (inst1, None) ->
  New data2 = (inst2, None) ->
  inst1 = inst2 /\
  inst1 = Some {| server := fst (FromConfiguration
                                   (fst (fst (GetServerConfiguration
                                                (getString data1 ["uuid"]))))) |}.
Proof.
  intros Hu _ H1 H2.
  pose proof (New_success_from_panel data1 inst1 H1) as P1.
  pose proof (New_success_from_panel data2 inst2 H2) as P2.
  rewrite H1 in P1. rewrite H2, <- Hu in P2.
  split; [congruence|].
  unfold fromPanel in P1.
  destruct (GetServerConfiguration (getString data1 ["uuid"])) as [[c rerr] err].
  destruct err as [err|]; [discriminate|].
  destruct rerr as [rerr|]; [discriminate|].
  cbn [fst]. destruct (FromConfiguration c) as [s e]. cbn [fst].
  congruence.
Qed.

End InstallerProperties.

(** C9, counterexample.  A request carrying two valid identifiers and no
    [environment] member is rejected with the key-path error, although
    the Panel knows the server and would have answered. *)
Lemma New_rejects_missing_environment :
  Installer.IsUUIDv4 (Installer.getString Installer.bareRequest ["uuid"]) = true /\
  Installer.IsUUIDv4 (Installer.getString Installer.bareRequest ["service"; "egg"]) = true /\
  Installer.New (ext := Installer.examplePanel) Installer.bareRequest
    = (None, Some (WithStack KeyPathNotFoundError)) /\
  Installer.fromPanel (ext := Installer.examplePanel) Installer.knownServer
    = (Some {| Installer.server :=
                 Some (Installer.knownServer, "quay.io/pterodactyl/core:java") |}, None).
Proof. repeat split; reflexivity. Qed.

Lemma New_server_from_panel_only_witness :
  Installer.getString Installer.completeRequest ["invocation"] <>
    Installer.getString Installer.otherRequest ["invocation"] /\
  fst (Installer.New (ext := Installer.examplePanel) Installer.completeRequest) =
  fst (Installer.New (ext := Installer.examplePanel) Installer.otherRequest).
Proof.
  split; [discriminate|].
  exact (proj1 (New_server_from_panel_only
                  (ext := Installer.examplePanel)
                  Installer.completeRequest Installer.otherRequest
                  (fst (Installer.New Installer.completeRequest))
                  (fst (Installer.New Installer.otherRequest))
                  eq_refl eq_refl eq_refl eq_refl)).
Defined.

(** * Further properties of the environment *)

Section MoreProperties.

Context {Host : Type} {client : APIClient Host} {os : OS Host} {daemon : Daemon}.

Ltac run_model :=
  unfold bind, getEnv, putEnv, ask, send, ret, emit;
  cbn [value world effects env host app fst snd negb].

(** *** Terminate *)

(** X1.  Terminate sends nothing and leaves the state alone unless the
    container is inspected as running: an inspection error is returned
    wrapped, a container that does not run gives nil. *)
Theorem Terminate_without_running_container (signal : Signal) (w : World (Host := Host)) :
  match ContainerInspect (host w) (Id (env w)) with
  | inl e => Terminate signal w = mkOutcome (Some (WithStack e)) w []
  | inr c =>
      if State_Running c
      then In (ContainerKillReq (Id (env w))
                 (TrimSuffix (TrimPrefix (Signal_String signal) "signal ") "ed"))
              (requests (effects (Terminate signal w)))
      else Terminate signal w = mkOutcome None w []
  end.
Proof.
  unfold Terminate. run_model.
  destruct (ContainerInspect (host w) (Id (env w))) as [e|c].
  - destruct w; reflexivity.
  - destruct (State_Running c); cbn [negb].
    + run_model. rewrite !requests_app. apply in_or_app. right.
      cbn [requests app]. left. reflexivity.
    + destruct w; reflexivity.
Qed.

(** X2.  On a container inspected as running, Terminate sends exactly one
    kill request.  When the runtime accepts it the call returns nil in
    state Offline; when the runtime refuses it the call returns that error
    as it is and the state stays at Stopping. *)
Theorem Terminate_running (signal : Signal) (w : World (Host := Host))
    (c : ContainerJSON) :
  ContainerInspect (host w) (Id (env w)) = inr c ->
  State_Running c = true ->
  let sig := TrimSuffix (TrimPrefix (Signal_String signal) "signal ") "ed" in
  let o := Terminate signal w in
  requests (effects o) = [ContainerKillReq (Id (env w)) sig] /\
  match fst (ContainerKill (host w) (Id (env w)) sig) with
  | Some err => value o = Some err /\ st (env (world o)) = ProcessStoppingState
  | None => value o = None /\ st (env (world o)) = ProcessOfflineState
  end.
Proof.
  intros Hi Hr sig o. subst o.
  unfold Terminate. run_model. rewrite Hi, Hr. cbn [negb]. run_model.
  rewrite ?setState_host, ?setState_Id. fold sig.
  destruct (fst (ContainerKill (host w) (Id (env w)) sig)) as [err|];
    run_model; rewrite !requests_app; cbn [requests app].
  - split; [|split; [reflexivity|apply setState_st]].
    rewrite setState_effects.
    destruct (ProcessState_eqb (st (env w)) ProcessStoppingState); reflexivity.
  - split; [|split; [reflexivity|apply setState_st]].
    rewrite !setState_effects. cbn [st env with_st].
    destruct (ProcessState_eqb (st (env w)) ProcessStoppingState);
      match goal with
      | |- context [if ?b then _ else _] => destruct b
      end; reflexivity.
Qed.

(** *** Stop *)

(** X3.  With the stop type Command and a stream attached, Stop sets the
    state to Stopping and only writes the stop command, followed by a
    newline, to the console: no stop request is sent to the runtime, and
    the result is the wrapped result of the write. *)
Theorem Stop_attached_command (w : World (Host := Host)) (conn : nat) :
  Stop_Type (meta_Stop (env w)) = ProcessStopCommand ->
  stream (env w) = Some conn ->
  let data := Stop_Value (meta_Stop (env w)) ++ String (ascii_of_nat 10) "" in
  let o := Stop w in
  requests (effects o) = [ConnWriteReq data] /\
  value o = errors_WithStack (fst (ConnWrite (host w) conn data)) /\
  st (env (world o)) = ProcessStoppingState /\
  stream (env (world o)) = Some conn.
Proof.
  intros Ht Hs data o. subst o.
  unfold Stop. run_model. rewrite Ht.
  unfold IsAttached, SendCommand, setState. run_model.
  destruct (ProcessState_eqb (st (env w)) ProcessStoppingState) eqn:E;
    run_model; cbn [stream with_st]; rewrite Hs; cbn [andb]; run_model;
    cbn [stream with_st st]; rewrite ?Hs; run_model; fold data;
    repeat split; try reflexivity; try exact Hs.
  apply ProcessState_eqb_eq. assumption.
Qed.

(** X4.  With another stop type than Signal, and unless the type is Command
    with a stream attached, Stop sends one stop request with a grace of ten
    seconds.  A not-found answer is a success that ends in Offline with the
    stream cleared; any other error is returned as it is, and like a
    success leaves the state at Stopping. *)
Theorem Stop_through_runtime (w : World (Host := Host)) :
  Stop_Type (meta_Stop (env w)) <> ProcessStopSignal ->
  (stream (env w) = None \/ Stop_Type (meta_Stop (env w)) <> ProcessStopCommand) ->
  let o := Stop w in
  requests (effects o) = [ContainerStopReq (Id (env w)) (10 * 1000000000)] /\
  match fst (ContainerStop (host w) (Id (env w)) (10 * 1000000000)) with
  | None => value o = None /\ st (env (world o)) = ProcessStoppingState
  | Some err =>
      if IsErrNotFound err
      then value o = None /\ st (env (world o)) = ProcessOfflineState /\
           stream (env (world o)) = None
      else value o = Some err /\ st (env (world o)) = ProcessStoppingState
  end.
Proof.
  intros Hsig Hcmd o. subst o.
  assert (Hc : (match stream (env w) with Some _ => true | None => false end &&
                match Stop_Type (meta_Stop (env w)) with
                | ProcessStopCommand => true
                | _ => false
                end) = false).
  { destruct Hcmd as [Hn|Hn]; [rewrite Hn; reflexivity|].
    destruct (Stop_Type (meta_Stop (env w))); try congruence;
      apply andb_false_r. }
  unfold Stop. run_model.
  assert (Hbody :
    forall k : M (Host := Host) (option error),
      match Stop_Type (meta_Stop (env w)) with
      | ProcessStopSignal => Terminate os_Kill
      | _ => k
      end = k).
  { intros k. destruct (Stop_Type (meta_Stop (env w))); congruence. }
  rewrite Hbody. clear Hbody.
  unfold IsAttached, setState. run_model.
  change (time_Second * 10) with (10 * 1000000000).
  destruct (ProcessState_eqb (st (env w)) ProcessStoppingState) eqn:E;
    run_model; cbn [stream with_st]; rewrite Hc; run_model;
    (destruct (fst (ContainerStop (host w) (Id (env w)) (10 * 1000000000)))
       as [err|]; [destruct (IsErrNotFound err)|]);
    unfold SetStream; run_model; cbn [st stream with_st with_stream];
    repeat split; try reflexivity;
    try (apply ProcessState_eqb_eq; assumption);
    try (rewrite !requests_app; cbn [requests app effects]; reflexivity).
  all: destruct (st (env w)); try discriminate; reflexivity.
Qed.

(** *** Destroy *)

(** X5.  Whatever the state, Destroy sends exactly one removal request,
    forced and with the volumes.  A not-found answer gives nil; any other
    answer is returned as it is, error or not, and the state then ends in
    Offline even when the removal failed. *)
Theorem Destroy_outcome (w : World (Host := Host)) :
  let opts := {| RemoveVolumes := true; RemoveLinks := false; Force := true |} in
  let o := Destroy w in
  requests (effects o) = [ContainerRemoveReq (Id (env w)) opts] /\
  match fst (ContainerRemove (host w) (Id (env w)) opts) with
  | Some err =>
      if IsErrNotFound err then value o = None
      else value o = Some err /\ st (env (world o)) = ProcessOfflineState
  | None => value o = None /\ st (env (world o)) = ProcessOfflineState
  end.
Proof.
  intros opts o. subst o.
  unfold Destroy, bind, getEnv, send, ret.
  cbn [value world effects env host app].
  rewrite !setState_host, !setState_Id. fold opts.
  split.
  - rewrite !requests_app.
    assert (Hq : forall s (w' : World (Host := Host)),
               requests (effects (setState s w')) = []).
    { intros s w'. rewrite setState_effects.
      destruct (ProcessState_eqb (st (env w')) s); reflexivity. }
    rewrite Hq. cbn [requests app].
    destruct (fst (ContainerRemove (host w) (Id (env w)) opts)) as [err|];
      [destruct (IsErrNotFound err)|];
      cbn [value world effects env host app]; rewrite ?requests_app, ?Hq;
      reflexivity.
  - destruct (fst (ContainerRemove (host w) (Id (env w)) opts)) as [err|];
      [destruct (IsErrNotFound err)|];
      cbn [value world effects env host app];
      try reflexivity; (split; [reflexivity|apply setState_st]).
Qed.

(** *** OnBeforeStart *)

(** X6.  OnBeforeStart begins with the removal of the container, with its
    volumes and without force.  When the removal fails with another error
    than not-found OnBeforeStart returns that error as it is and sends
    nothing else; otherwise what follows is Create with the invocation of
    the environment, whose result is returned. *)
Theorem OnBeforeStart_removes_first (w : World (Host := Host)) :
  let opts := {| RemoveVolumes := true; RemoveLinks := false; Force := false |} in
  let removed := ContainerRemove (host w) (Id (env w)) opts in
  let created := Create (invocation (env w)) (mkWorld (env w) (snd removed)) in
  let o := OnBeforeStart w in
  if match fst removed with
     | Some err => negb (IsErrNotFound err)
     | None => false
     end
  then value o = fst removed /\
       effects o = [Sent (ContainerRemoveReq (Id (env w)) opts)]
  else value o = value created /\
       world o = world created /\
       effects o = Sent (ContainerRemoveReq (Id (env w)) opts) :: effects created.
Proof.
  intros opts removed created o. subst o.
  unfold OnBeforeStart. run_model. fold opts. fold removed. fold created.
  destruct (fst removed) as [err|]; [destruct (IsErrNotFound err)|];
    cbn [negb]; run_model; fold created;
    try (destruct (value created); run_model; rewrite ?app_nil_r;
         repeat split; reflexivity).
Qed.

(** *** The image pull and the registry credentials *)

Lemma In_Sent_requests (r : Request) (l : list Effect) :
  In (Sent r) l <-> In r (requests l).
Proof.
  induction l as [|ef l IH]; [reflexivity|].
  destruct ef; simpl; rewrite <- IH; split; intros H;
    try (destruct H as [H|H]; [discriminate|assumption]); auto.
  - destruct H as [H|H]; [left; congruence|right; assumption].
  - destruct H as [H|H]; [left; congruence|right; assumption].
Qed.

Lemma findRegistry_first (image : string) (rs : list (string * RegistryConfiguration)) :
  match findRegistry image rs with
  | Some (r, c) =>
      HasPrefix image r = true /\
      exists before after,
        rs = (before ++ (r, c) :: after)%list /\
        forall r' c', In (r', c') before -> HasPrefix image r' = false
  | None => forall r c, In (r, c) rs -> HasPrefix image r = false
  end.
Proof.
  induction rs as [|[r c] rs IH]; cbn [findRegistry].
  - intros r c [].
  - destruct (HasPrefix image r) eqn:P; cbn [negb].
    + split; [assumption|]. exists [], rs. split; [reflexivity|]. intros r' c' [].
    + destruct (findRegistry image rs) as [[r0 c0]|].
      * destruct IH as [P0 (before & after & E & Hb)].
        split; [assumption|].
        exists ((r, c) :: before), after. split; [rewrite E; reflexivity|].
        intros r' c' [H|H]; [congruence|eauto].
      * intros r' c' [H|H]; [congruence|eauto].
Qed.

(** X7.  The credentials sent with a pull are those of the first configured
    registry, in the order the registries are visited, whose name is a
    prefix of the image; when no registry name is a prefix of the image
    the pull carries no credentials. *)
Theorem imagePullOptions_first_matching_registry (image : string) :
  match findRegistry image (Docker_Registries config_Get) with
  | Some (r, c) =>
      imagePullOptions image = {| All := false; RegistryAuth := fst (Base64 c) |} /\
      HasPrefix image r = true /\
      exists before after,
        Docker_Registries config_Get = (before ++ (r, c) :: after)%list /\
        forall r' c', In (r', c') before -> HasPrefix image r' = false
  | None =>
      imagePullOptions image = {| All := false; RegistryAuth := "" |} /\
      forall r c, In (r, c) (Docker_Registries config_Get) -> HasPrefix image r = false
  end.
Proof.
  pose proof (findRegistry_first image (Docker_Registries config_Get)) as F.
  unfold imagePullOptions, registryAuth.
  destruct (findRegistry image (Docker_Registries config_Get)) as [[r c]|].
  - destruct F as [P F]. repeat split; assumption.
  - split; [reflexivity|assumption].
Qed.

Lemma ensureImageExists_requests (image : string) (w : World (Host := Host)) :
  requests (effects (ensureImageExists image w)) =
  [ImagePullReq pullTimeout image (imagePullOptions image)].
Proof.
  unfold ensureImageExists. run_model.
  destruct (registryAuth image) as [c|]; [destruct (snd (Base64 c))|];
    run_model;
    (destruct (fst (ImagePull (host w) pullTimeout image (imagePullOptions image)))
       as [err|scannerErr]; run_model;
     [destruct (ImageList _ pullTimeout) as [ierr|images];
        [|destruct (existsLocally image images)]|]);
    reflexivity.
Qed.

(** X8.  Whatever the runtime answers, the only request ensureImageExists
    sends that can change the host is the pull of the image, sent exactly
    once under a deadline of fifteen minutes.  (The list of the local
    images, asked for after a failed pull, is a read-only request and is
    not counted.) *)
Theorem ensureImageExists_single_pull (image : string) (w : World (Host := Host)) :
  requests (effects (ensureImageExists image w)) =
  [ImagePullReq (15 * 60 * 1000000000) image (imagePullOptions image)].
Proof. exact (ensureImageExists_requests image w). Qed.

(** X9.  When the pull succeeds, ensureImageExists returns what the scan of
    the pull stream reports, a failed scan included, and does not fall
    back to the local images: no warning is logged. *)
Theorem ensureImageExists_pull_succeeded (image : string) (w : World (Host := Host))
    (scannerErr : option error) :
  fst (ImagePull (host w) pullTimeout image (imagePullOptions image)) = inr scannerErr ->
  let o := ensureImageExists image w in
  value o = scannerErr /\
  world o = mkWorld (env w)
              (snd (ImagePull (host w) pullTimeout image (imagePullOptions image))) /\
  forall msg, ~ In (Logged Warn msg) (effects o).
Proof.
  intros Hp o. subst o. unfold ensureImageExists. run_model.
  destruct (registryAuth image) as [c|]; [destruct (snd (Base64 c))|];
    run_model; rewrite Hp; run_model;
    (split; [reflexivity|]); (split; [reflexivity|]);
    intros msg H; simpl in H;
    repeat match goal with
           | H : _ \/ _ |- _ => destruct H
           end; try discriminate; assumption.
Qed.

(** *** Create *)

Lemma Create_requests_cases (invocation : string) (w : World (Host := Host)) :
  let pull := ImagePullReq pullTimeout (image (env w)) (imagePullOptions (image (env w))) in
  let create := ContainerCreateReq (containerConfig (env w) invocation)
                                   (containerHostConfig (env w)) (Id (env w)) in
  requests (effects (Create invocation w)) = [] \/
  requests (effects (Create invocation w)) = [pull] \/
  requests (effects (Create invocation w)) = [pull; create].
Proof.
  intros pull create.
  pose proof (ensureImageExists_requests (image (env w)) w) as Hq.
  fold pull in Hq.
  unfold Create, bind, getEnv, ask, ret, send.
  cbn [value world effects env host app].
  destruct (ContainerInspect (host w) (Id (env w))) as [err|c]; [|left; reflexivity].
  destruct (negb (IsErrNotFound err)); [left; reflexivity|].
  cbn [value world effects env host app].
  destruct (value (ensureImageExists (image (env w)) w)) as [e|];
    cbn [value world effects env host app]; rewrite ?requests_app, Hq.
  - right. left. reflexivity.
  - right. right. fold create.
    destruct (fst (ContainerCreate _ _ _ _)); reflexivity.
Qed.

(** X10.  Besides the read-only inspection of the container and list of
    the local images, Create sends its requests in a fixed order and at
    most once each: none, or the pull alone, or the pull followed by the
    creation of a container named by the id of the environment. *)
Theorem Create_requests_shape (invocation : string) (w : World (Host := Host)) :
  let pull := ImagePullReq pullTimeout (image (env w)) (imagePullOptions (image (env w))) in
  let create := ContainerCreateReq (containerConfig (env w) invocation)
                                   (containerHostConfig (env w)) (Id (env w)) in
  requests (effects (Create invocation w)) = [] \/
  requests (effects (Create invocation w)) = [pull] \/
  requests (effects (Create invocation w)) = [pull; create].
Proof. exact (Create_requests_cases invocation w). Qed.

(** X11.  Every container Create asks the runtime for is named by the id of
    the environment, which is also its hostname, runs the image of the
    environment as the configured user with a terminal and an open
    standard input, and is locked down: read-only root file system, no
    new privileges, the ten capabilities dropped, a /tmp of 50M and a
    single log file of 5m. *)
Theorem Create_request_locked_down (invocation : string) (w : World (Host := Host))
    (conf : Config) (hostConf : HostConfig) (name : string) :
  In (Sent (ContainerCreateReq conf hostConf name)) (effects (Create invocation w)) ->
  name = Id (env w) /\
  Hostname conf = Id (env w) /\
  Image conf = image (env w) /\
  Env conf = EnvironmentVariables (configuration (env w)) invocation /\
  User conf = strconv_Itoa (System_User_Uid config_Get) /\
  (Tty conf = true /\ OpenStdin conf = true /\ AttachStdin conf = true) /\
  Labels conf = [("Service", "Pterodactyl"); ("ContainerType", "server_process")] /\
  ReadonlyRootfs hostConf = true /\
  SecurityOpt hostConf = ["no-new-privileges"] /\
  CapDrop hostConf = ["setpcap"; "mknod"; "audit_write"; "net_raw"; "dac_override";
                      "fowner"; "fsetid"; "net_bind_service"; "sys_chroot"; "setfcap"] /\
  Tmpfs hostConf = [("/tmp", "rw,exec,nosuid,size=50M")] /\
  LogConfig_Config hostConf = [("max-size", "5m"); ("max-file", "1")].
Proof.
  intros H. apply In_Sent_requests in H.
  destruct (Create_requests_cases invocation w) as [E|[E|E]];
    rewrite E in H; simpl in H;
    repeat match goal with
           | H : _ \/ _ |- _ => destruct H
           end; try discriminate; try contradiction.
  injection H as <- <- <-. repeat split; reflexivity.
Qed.

(** X12.  When the inspection of the container fails with another error
    than not-found, Create returns that error wrapped and does nothing
    else: no pull, no creation. *)
Theorem Create_inspect_error (invocation : string) (w : World (Host := Host))
    (e : error) :
  ContainerInspect (host w) (Id (env w)) = inl e ->
  IsErrNotFound e = false ->
  Create invocation w = mkOutcome (Some (WithStack e)) w [].
Proof.
  intros Hi Hn. unfold Create. run_model. rewrite Hi, Hn. cbn [negb].
  destruct w; reflexivity.
Qed.

(** X13.  When the pull fails and the list of the local images cannot be
    obtained either, Create fails with the wrapped error of the list, not
    with the pull error, and sends no creation request. *)
Theorem Create_image_list_failure (invocation : string) (w : World (Host := Host))
    (nf perr ierr : error) :
  ContainerInspect (host w) (Id (env w)) = inl nf ->
  IsErrNotFound nf = true ->
  fst (ImagePull (host w) pullTimeout (image (env w))
                 (imagePullOptions (image (env w)))) = inl perr ->
  ImageList (snd (ImagePull (host w) pullTimeout (image (env w))
                            (imagePullOptions (image (env w))))) pullTimeout
  = inl ierr ->
  value (Create invocation w) = Some (WithStack ierr) /\
  requests (effects (Create invocation w)) =
    [ImagePullReq pullTimeout (image (env w)) (imagePullOptions (image (env w)))].
Proof.
  intros Hi Hn Hp Hl.
  destruct (ensureImageExists_pull_failed (image (env w)) w perr Hp) as [_ Hv].
  rewrite Hl in Hv.
  pose proof (ensureImageExists_requests (image (env w)) w) as Hq.
  unfold Create, bind, getEnv, ask, ret, send.
  cbn [value world effects env host app]. rewrite Hi, Hn. cbn [negb].
  cbn [value world effects env host app]. rewrite Hv.
  cbn [value world effects env host app].
  split; [reflexivity|]. rewrite app_nil_r. exact Hq.
Qed.

(** *** Attach *)

Lemma Attach_attached (w : World (Host := Host)) (conn : nat) :
  stream (env w) = Some conn ->
  Attach w = mkOutcome None w [].
Proof.
  intros Hs. unfold Attach, IsAttached. run_model. rewrite Hs.
  destruct w; reflexivity.
Qed.

(** X14.  Attach on an environment that already holds a stream returns nil
    and does nothing. *)
Theorem Attach_attached_is_noop (w : World (Host := Host)) (conn : nat) :
  stream (env w) = Some conn ->
  Attach w = mkOutcome None w [].
Proof. exact (Attach_attached w conn). Qed.

(** X15.  Attach on an environment without a stream whose container is
    reported missing fails with "no such container: " followed by the id,
    sends nothing to the runtime, starts no goroutine and leaves the
    environment detached. *)
Theorem Attach_missing_container (w : World (Host := Host)) :
  stream (env w) = None ->
  value (Exists w) = (false, None) ->
  Attach w =
  mkOutcome (Some (WithStack (errors_New ("no such container: " ++ Id (env w))))) w [].
Proof.
  intros Hs Hx. unfold Attach, IsAttached, followOutput. run_model. rewrite Hs.
  assert (Hw : Exists w = mkOutcome (false, None) w []).
  { revert Hx. unfold Exists. run_model.
    destruct (ContainerInspect (host w) (Id (env w))) as [err|c].
    - destruct (IsErrNotFound err); cbn [value]; intros H;
        [destruct w; reflexivity|discriminate].
    - cbn [value]. discriminate. }
  rewrite Hw. run_model. reflexivity.
Qed.

Lemma followOutput_existing (w : World (Host := Host)) (c : ContainerJSON) :
  ContainerInspect (host w) (Id (env w)) = inr c ->
  let opts := {| ShowStderr := true; ShowStdout := true; Follow := true |} in
  followOutput w =
  mkOutcome (errors_WithStack (fst (ContainerLogs (host w) (Id (env w)) opts)))
            (mkWorld (env w) (snd (ContainerLogs (host w) (Id (env w)) opts)))
            [Sent (ContainerLogsReq (Id (env w)) opts);
             Go (match fst (ContainerLogs (host w) (Id (env w)) opts) with
                 | None => LogFollower (Id (env w))
                 | Some _ => LogFollowerNilReader (Id (env w))
                 end)].
Proof.
  intros Hi opts. unfold followOutput, Exists. run_model. rewrite Hi.
  run_model. reflexivity.
Qed.

(** X16.  On an existing container, followOutput sends the logs request and
    starts the log follower before it looks at the answer.  When the
    request succeeded the follower scans the reader and the call returns
    nil.  When the request failed the follower is started all the same,
    on the nil reader, where it panics, while the call returns the error
    wrapped. *)
Theorem followOutput_starts_follower (w : World (Host := Host)) (c : ContainerJSON) :
  ContainerInspect (host w) (Id (env w)) = inr c ->
  let opts := {| ShowStderr := true; ShowStdout := true; Follow := true |} in
  let o := followOutput w in
  env (world o) = env w /\
  match fst (ContainerLogs (host w) (Id (env w)) opts) with
  | None =>
      value o = None /\
      effects o = [Sent (ContainerLogsReq (Id (env w)) opts);
                   Go (LogFollower (Id (env w)))]
  | Some err =>
      value o = Some (WithStack err) /\
      effects o = [Sent (ContainerLogsReq (Id (env w)) opts);
                   Go (LogFollowerNilReader (Id (env w)))]
  end.
Proof.
  intros Hi opts o. subst o. rewrite (followOutput_existing w c Hi). fold opts.
  split; [reflexivity|].
  destruct (fst (ContainerLogs (host w) (Id (env w)) opts)); split; reflexivity.
Qed.

(** X17.  On an existing container and without a stream, when the logs
    request succeeds: if the attach request succeeds Attach returns nil,
    holds the stream it was given and has started the log follower and
    the copier of the stream, in this order; if the attach request fails
    Attach returns the error wrapped and stays detached, the log follower
    having been started all the same. *)
Theorem Attach_outcome (w : World (Host := Host)) (c : ContainerJSON) :
  stream (env w) = None ->
  ContainerInspect (host w) (Id (env w)) = inr c ->
  let logs := {| ShowStderr := true; ShowStdout := true; Follow := true |} in
  let opts := {| Attach_Stdin := true; Attach_Stdout := true;
                 Attach_Stderr := true; Attach_Stream := true |} in
  fst (ContainerLogs (host w) (Id (env w)) logs) = None ->
  let followed := snd (ContainerLogs (host w) (Id (env w)) logs) in
  let o := Attach w in
  match fst (ContainerAttach followed (Id (env w)) opts) with
  | inr conn =>
      value o = None /\
      stream (env (world o)) = Some conn /\
      st (env (world o)) = st (env w) /\
      effects o = [Sent (ContainerLogsReq (Id (env w)) logs); Go (LogFollower (Id (env w)));
                   Sent (ContainerAttachReq (Id (env w)) opts); Go (AttachCopier (Id (env w)))]
  | inl err =>
      value o = Some (WithStack err) /\
      stream (env (world o)) = None /\
      effects o = [Sent (ContainerLogsReq (Id (env w)) logs); Go (LogFollower (Id (env w)));
                   Sent (ContainerAttachReq (Id (env w)) opts)]
  end.
Proof.
  intros Hs Hi logs opts Hl followed o. subst o.
  unfold Attach, IsAttached, bind, getEnv, ret.
  cbn [value world effects env host app]. rewrite Hs.
  rewrite (followOutput_existing w c Hi). fold logs.
  rewrite Hl. cbn [errors_WithStack value world effects env host app].
  unfold SetStream. run_model. fold opts. fold followed.
  destruct (fst (ContainerAttach followed (Id (env w)) opts)) as [err|conn];
    run_model; cbn [stream st with_stream]; repeat split; try reflexivity.
  exact Hs.
Qed.

Lemma setState_same (s : ProcessState) (w : World (Host := Host)) :
  st (env w) = s -> setState s w = mkOutcome tt w [].
Proof.
  intros E. unfold setState. run_model. rewrite E.
  replace (ProcessState_eqb s s) with true
    by (symmetry; apply ProcessState_eqb_eq; reflexivity).
  destruct w; reflexivity.
Qed.

Lemma SetStream_same (c : option nat) (w : World (Host := Host)) :
  stream (env w) = c -> SetStream c w = mkOutcome tt w [].
Proof.
  intros E. unfold SetStream. run_model.
  destruct w as [e h]. cbn [env host] in *. subst c.
  destruct e; reflexivity.
Qed.

(** X18.  After the attach stream has closed, the environment is Offline
    and detached; a second run of the close handler changes nothing and
    publishes no state change. *)
Theorem attachStreamClosed_idempotent (w : World (Host := Host)) :
  let closed := world (attachStreamClosed w) in
  st (env closed) = ProcessOfflineState /\
  stream (env closed) = None /\
  attachStreamClosed closed = mkOutcome tt closed [].
Proof.
  intros closed.
  assert (S : st (env closed) = ProcessOfflineState).
  { subst closed. unfold attachStreamClosed. rewrite world_bind.
    unfold SetStream at 1. run_model. cbn [st with_stream].
    apply setState_st. }
  assert (C : stream (env closed) = None).
  { subst closed. unfold attachStreamClosed. rewrite world_bind.
    unfold SetStream at 1. run_model. reflexivity. }
  split; [exact S|]. split; [exact C|].
  unfold attachStreamClosed, bind.
  rewrite (setState_same _ closed S). cbn [value world effects].
  rewrite (SetStream_same None closed C). reflexivity.
Qed.

(** X19.  Create, OnBeforeStart, followOutput, Attach and ensureImageExists
    never write the state variable and never publish a state change,
    whatever the runtime answers. *)
Theorem setup_operations_keep_state (invocation image : string) :
  quiet (Create invocation) /\
  quiet OnBeforeStart /\
  quiet followOutput /\
  quiet Attach /\
  quiet (ensureImageExists image).
Proof.
  repeat split;
    first [apply quiet_Create | apply quiet_OnBeforeStart | apply quiet_followOutput
          | apply quiet_Attach | apply quiet_ensureImageExists].
Qed.

(** *** Start and Restart *)

Lemma setState_requests (s : ProcessState) (w : World (Host := Host)) :
  requests (effects (setState s w)) = [].
Proof.
  rewrite setState_effects.
  destruct (ProcessState_eqb (st (env w)) s); reflexivity.
Qed.

(** X20.  Start on a container that already runs, with the stream already
    attached, only records the state Running: after the inspection it
    sends no further request, leaves the host as it was, and returns
    nil. *)
Theorem Start_running_attached (w : World (Host := Host)) (c : ContainerJSON)
    (conn : nat) :
  ContainerInspect (host w) (Id (env w)) = inr c ->
  State_Running c = true ->
  stream (env w) = Some conn ->
  value (Start w) = None /\
  requests (effects (Start w)) = [] /\
  st (env (world (Start w))) = ProcessRunningState /\
  stream (env (world (Start w))) = Some conn /\
  host (world (Start w)) = host w.
Proof.
  intros Hi Hr Hs.
  set (w1 := world (setState ProcessRunningState w)).
  assert (Hs1 : stream (env w1) = Some conn).
  { subst w1. unfold setState. run_model.
    destruct (ProcessState_eqb (st (env w)) ProcessRunningState);
      run_model; exact Hs. }
  assert (E : Start_inspect w =
              mkOutcome (Return None) w1 (effects (setState ProcessRunningState w))).
  { unfold Start_inspect. run_model. rewrite Hi, Hr. run_model. fold w1.
    rewrite (Attach_attached w1 conn Hs1). run_model.
    rewrite !app_nil_r. reflexivity. }
  unfold Start, bind. rewrite E. run_model.
  rewrite !app_nil_r, setState_requests.
  subst w1. rewrite setState_st, setState_host.
  repeat split; try reflexivity. exact Hs1.
Qed.

Lemma Start_boot_sentinel (w : World (Host := Host)) :
  fst (value (Start_boot w)) = true -> snd (value (Start_boot w)) <> None.
Proof.
  unfold Start_boot. rewrite !value_bind.
  destruct (value (OnBeforeStart _)) as [err|]; [cbn; discriminate|].
  rewrite !value_bind. unfold getEnv, send. cbn [value world env host].
  destruct (fst (ContainerStart _ _ _)) as [err|]; [cbn; discriminate|].
  rewrite value_bind. cbn. discriminate.
Qed.

(** X21.  Start never records Running for a container it boots itself:
    when the inspection lets the boot chain run and Start returns nil,
    the state is Starting. *)
Theorem Start_success_is_Starting (w : World (Host := Host)) :
  value (Start_inspect w) = Next ->
  value (Start w) = None ->
  st (env (world (Start w))) = ProcessStartingState.
Proof.
  intros V N.
  set (w0 := world (Start_inspect w)) in *.
  destruct (Start_boot_spec w0) as [S _].
  pose proof (Start_boot_sentinel w0) as Hsaw.
  revert N. unfold Start.
  rewrite !value_bind, !world_bind, V. fold w0.
  cbn [ret value world].
  destruct (fst (value (Start_boot w0))) eqn:F.
  - intros N. exfalso. apply Hsaw; [reflexivity|exact N].
  - intros _. exact S.
Qed.

Lemma OnBeforeStart_no_start (w : World (Host := Host)) :
  filter isStart (requests (effects (OnBeforeStart w))) = [].
Proof.
  unfold OnBeforeStart. run_model.
  set (w1 := mkWorld (env w) _).
  assert (Hc : filter isStart (requests (effects (Create (invocation (env w)) w1))) = []).
  { destruct (Create_requests_cases (invocation (env w)) w1) as [E|[E|E]];
      rewrite E; reflexivity. }
  destruct (fst (ContainerRemove _ _ _)) as [err|];
    [destruct (negb (IsErrNotFound err))|]; run_model;
    try reflexivity;
    cbn [requests filter isStart];
    rewrite requests_app, filter_app, Hc;
    destruct (value (Create (invocation (env w)) w1)); reflexivity.
Qed.

Lemma Start_inspect_next_no_start (w : World (Host := Host)) :
  value (Start_inspect w) = Next ->
  filter isStart (requests (effects (Start_inspect w))) = [].
Proof.
  unfold Start_inspect. run_model.
  destruct (ContainerInspect (host w) (Id (env w))) as [err|c].
  - destruct (negb (IsErrNotFound err)); reflexivity.
  - destruct (State_Running c); run_model; [discriminate|].
    destruct (os_Stat (host w) (LogPath c)); run_model; [reflexivity|].
    destruct (fst (os_Truncate (host w) (LogPath c) 0)); reflexivity.
Qed.

(** X22.  When OnBeforeStart fails, Start sends no start request to the
    runtime. *)
Theorem Start_prepare_failure_sends_no_start (w : World (Host := Host)) (e : error) :
  value (Start_inspect w) = Next ->
  value (OnBeforeStart (booting w)) = Some e ->
  filter isStart (requests (effects (Start w))) = [].
Proof.
  intros V B.
  unfold Start. rewrite effects_bind, requests_app, filter_app.
  rewrite (Start_inspect_next_no_start w V), V. cbn [app].
  set (w0 := world (Start_inspect w)).
  rewrite effects_bind, requests_app, filter_app.
  assert (Hb : filter isStart (requests (effects (Start_boot w0))) = [] /\
               value (Start_boot w0) = (true, Some (WithStack e))).
  { unfold Start_boot. split.
    - rewrite effects_bind, requests_app, filter_app, setState_requests.
      cbn [filter app].
      change (world (setState ProcessStartingState w0)) with (booting w).
      rewrite effects_bind, requests_app, filter_app, OnBeforeStart_no_start, B.
      reflexivity.
    - rewrite !value_bind.
      change (world (setState ProcessStartingState w0)) with (booting w).
      rewrite B. reflexivity. }
  destruct Hb as [Hq Hv]. rewrite Hq, Hv. cbn [app fst snd].
  rewrite !effects_bind, !requests_app, !filter_app, !setState_requests.
  reflexivity.
Qed.

Lemma WaitForStop_timeout (seconds : Z) (w : World (Host := Host)) :
  value (Stop w) = None ->
  fst (ContainerWait (host (world (Stop w))) (seconds_Duration seconds)
                     (Id (env (world (Stop w)))) WaitConditionNotRunning) = ctx_Done ->
  WaitForStop seconds false w =
  mkOutcome (Some (WithStack DeadlineExceeded))
            (mkWorld (env (world (Stop w)))
                     (snd (ContainerWait (host (world (Stop w))) (seconds_Duration seconds)
                                         (Id (env (world (Stop w))))
                                         WaitConditionNotRunning)))
            (effects (Stop w) ++
             [Sent (ContainerWaitReq (seconds_Duration seconds)
                                     (Id (env (world (Stop w))))
                                     WaitConditionNotRunning)])%list.
Proof.
  unfold WaitForStop, bind.
  destruct (Stop w) as [v ws es]. cbn [value world effects].
  intros Hs Hw. subst v.
  unfold getEnv, send, ret. cbn [value world effects env host app].
  rewrite Hw. cbn [value world effects env host app].
  rewrite ?app_nil_r. reflexivity.
Qed.

(** X23.  Restart waits sixty seconds and never escalates: when Stop
    succeeds and the container is still running at the deadline, Restart
    returns the deadline error, sends nothing after the wait (no kill) and
    does not start the process. *)
Theorem Restart_stop_timeout (w : World (Host := Host)) :
  value (Stop w) = None ->
  let stopped := world (Stop w) in
  let wait := ContainerWaitReq (60 * 1000000000) (Id (env stopped)) WaitConditionNotRunning in
  fst (ContainerWait (host stopped) (60 * 1000000000) (Id (env stopped))
                     WaitConditionNotRunning) = ctx_Done ->
  value (Restart w) = Some (WithStack DeadlineExceeded) /\
  effects (Restart w) = (effects (Stop w) ++ [Sent wait])%list /\
  env (world (Restart w)) = env stopped.
Proof.
  intros Hs stopped wait Hw.
  change (60 * 1000000000) with (seconds_Duration 60) in *.
  unfold Restart, bind. rewrite (WaitForStop_timeout 60 w Hs Hw).
  cbn [ret value world effects env]. rewrite ?app_nil_r.
  repeat split; reflexivity.
Qed.

(** X24.  For a number of seconds between zero and 9223372036 the deadline
    of the wait is that many seconds, in nanoseconds; from 9223372037 to
    18446744073 seconds the 64-bit duration wraps around and the deadline
    is negative. *)
Theorem WaitForStop_deadline (seconds : Z) (terminate : bool) (w : World (Host := Host)) :
  value (Stop w) = None ->
  0 <= seconds <= 9223372036 ->
  In (ContainerWaitReq (seconds * 1000000000) (Id (env (world (Stop w))))
                       WaitConditionNotRunning)
     (requests (effects (WaitForStop seconds terminate w))) /\
  forall more, 9223372036 < more <= 18446744073 -> seconds_Duration more < 0.
Proof.
  intros Hs Hr. split.
  - rewrite <- seconds_Duration_exact by lia.
    unfold WaitForStop. rewrite effects_bind, requests_app, Hs.
    apply in_or_app. right. run_model. left. reflexivity.
  - intros more Hm. unfold seconds_Duration, wrap64, time_Second.
    replace (more * 1000000000 + 2 ^ 63)
      with ((more * 1000000000 + 2 ^ 63 - 2 ^ 64) + 1 * 2 ^ 64) by ring.
    rewrite Z_mod_plus_full, Z.mod_small; lia.
Qed.

(** *** convertMounts *)

Lemma fold_left_snoc {A B} (f : A -> B) (l : list A) (acc : list B) :
  fold_left (fun out a => (out ++ [f a])%list) l acc = (acc ++ map f l)%list.
Proof.
  revert acc. induction l as [|a l IH]; intros acc; cbn [fold_left map].
  - rewrite app_nil_r. reflexivity.
  - rewrite IH, <- app_assoc. reflexivity.
Qed.

(** X26.  convertMounts returns one bind mount per configured mount, in the
    same order and with the same source, target and read-only flag; no
    mount is dropped, added or turned into another type. *)
Theorem convertMounts_preserves (e : Environment) :
  List.length (convertMounts e) = List.length (Mounts (configuration e)) /\
  forall i,
    nth_error (convertMounts e) i =
    match nth_error (Mounts (configuration e)) i with
    | Some m => Some {| mount_Type_ := TypeBind;
                        mount_Source := Mount_Source m;
                        mount_Target := Mount_Target m;
                        mount_ReadOnly := Mount_ReadOnly m |}
    | None => None
    end.
Proof.
  unfold convertMounts.
  rewrite (fold_left_snoc
             (fun m => {| mount_Type_ := TypeBind;
                          mount_Source := Mount_Source m;
                          mount_Target := Mount_Target m;
                          mount_ReadOnly := Mount_ReadOnly m |})).
  cbn [app]. split; [apply length_map|].
  intros i. rewrite nth_error_map.
  destruct (nth_error (Mounts (configuration e)) i); reflexivity.
Qed.

End MoreProperties.

(** *** InSituUpdate *)

Section InSituProperties.

Context {Host : Type} {client : APIClient Host} {updater : UpdateClient Host}.

(** X25.  InSituUpdate never touches the environment and sends at most one
    update request.  On a missing container it returns nil and sends
    nothing; on another inspection error it returns the error wrapped and
    sends nothing; otherwise it sends the resources of the configuration
    under a deadline of ten seconds and returns the wrapped answer. *)
Theorem InSituUpdate_outcome (w : World (Host := Host)) :
  env (snd (fst (InSituUpdate w))) = env w /\
  match ContainerInspect (host w) (Id (env w)) with
  | inl e =>
      InSituUpdate w =
      (if IsErrNotFound e then None else Some (WithStack e), w, [])
  | inr _ =>
      let u := {| Update_Resources := resources (configuration (env w)) |} in
      snd (InSituUpdate w) = [ContainerUpdateReq (10 * 1000000000) (Id (env w)) u] /\
      fst (fst (InSituUpdate w)) =
      errors_WithStack (fst (ContainerUpdate (host w) (10 * 1000000000) (Id (env w)) u))
  end.
Proof.
  unfold InSituUpdate. change (time_Second * 10) with (10 * 1000000000).
  destruct (ContainerInspect (host w) (Id (env w))) as [e|c].
  - destruct (IsErrNotFound e); split; reflexivity.
  - cbv zeta.
    destruct (fst (ContainerUpdate _ _ _ _)); repeat split; reflexivity.
Qed.

End InSituProperties.

(** *** The installer constructor, continued *)

Section MoreInstallerProperties.

Import Installer.

Context {Response Server : Type} {ext : Collaborators Response Server}.

(** X27.  A request whose [uuid] member is missing, or is not a string, is
    rejected with the uuid validation error, whatever else it holds. *)
Theorem New_without_string_uuid (data : json) :
  (forall s, jsonparser_Get data ["uuid"] <> Some (JString s)) ->
  New data = (None, Some (ValidationError "uuid provided was not in a valid format")).
Proof.
  intros H.
  assert (E : getString data ["uuid"] = "").
  { unfold getString.
    destruct (jsonparser_Get data ["uuid"]) as [[| | | |s| |]|];
      try reflexivity. exfalso. exact (H s eq_refl). }
  unfold New. rewrite E. reflexivity.
Qed.

(** X28.  Once the request has passed the checks, the result is decided by
    the Panel alone.  A transport error is returned wrapped and takes
    precedence over an error response of the Panel; an error response
    alone becomes a new error carrying its text; in both cases there is no
    installer.  When the Panel answers, the installer is returned, holding
    what FromConfiguration built, together with the error FromConfiguration
    reports, if any. *)
Theorem New_panel_outcomes (data : json) :
  IsUUIDv4 (getString data ["uuid"]) = true ->
  IsUUIDv4 (getString data ["service"; "egg"]) = true ->
  mapsDecode data = true ->
  match GetServerConfiguration (getString data ["uuid"]) with
  | (_, _, Some err) => New data = (None, Some (WithStack err))
  | (_, Some rerr, None) => New data = (None, Some (errors_New rerr))
  | (c, None, None) =>
      New data = (Some {| server := fst (FromConfiguration c) |},
                  snd (FromConfiguration c))
  end.
Proof.
  intros Hu He Hm.
  pose proof (New_past_validation data Hu He) as P. rewrite Hm in P.
  unfold fromPanel in P.
  destruct (GetServerConfiguration (getString data ["uuid"])) as [[c rerr] err].
  destruct rerr as [rerr|], err as [err|]; try exact P.
  destruct (FromConfiguration c) as [s e]. exact P.
Qed.

End MoreInstallerProperties.

(** * The further properties on the reference host *)

Lemma Terminate_running_witness :
  ContainerInspect (host Sim.stubborn) (Id (env Sim.stubborn)) =
    inr {| State_Running := true; LogPath := Sim.logPath (Id (env Sim.stubborn)) |} /\
  requests (effects (Terminate os_Kill Sim.stubborn)) =
    [ContainerKillReq (Id (env Sim.stubborn)) "kill"] /\
  st (env (world (Terminate os_Kill Sim.stubborn))) = ProcessOfflineState.
Proof.
  split; [reflexivity|].
  pose proof (Terminate_running os_Kill Sim.stubborn
                {| State_Running := true; LogPath := Sim.logPath (Id (env Sim.stubborn)) |}
                eq_refl eq_refl) as P.
  vm_compute in P. destruct P as [Q [_ S]].
  split; vm_compute; [exact Q | exact S].
Defined.

Lemma Stop_attached_command_witness :
  Stop_Type (meta_Stop (env Sim.stubborn)) = ProcessStopCommand /\
  stream (env Sim.stubborn) = Some 1%nat /\
  filter isStop (requests (effects (Stop Sim.stubborn))) = [] /\
  st (env (world (Stop Sim.stubborn))) = ProcessStoppingState.
Proof.
  split; [reflexivity|]. split; [reflexivity|].
  pose proof (Stop_attached_command Sim.stubborn 1%nat eq_refl eq_refl) as P.
  cbv zeta in P. destruct P as [Q [_ [S _]]].
  split; [rewrite Q; reflexivity | exact S].
Defined.

Lemma Stop_through_runtime_witness :
  Stop_Type (meta_Stop (env Sim.running)) <> ProcessStopSignal /\
  stream (env Sim.running) = None /\
  requests (effects (Stop Sim.running)) =
    [ContainerStopReq (Id (env Sim.running)) (10 * 1000000000)].
Proof.
  assert (H : Stop_Type (meta_Stop (env Sim.running)) <> ProcessStopSignal)
    by discriminate.
  split; [exact H|]. split; [reflexivity|].
  exact (proj1 (Stop_through_runtime Sim.running H (or_introl eq_refl))).
Defined.

Lemma ensureImageExists_pull_succeeded_witness :
  fst (ImagePull (host Sim.stopped) pullTimeout Sim.gameImage
                 (imagePullOptions Sim.gameImage)) = inr None /\
  value (ensureImageExists Sim.gameImage Sim.stopped) = None.
Proof.
  split; [reflexivity|].
  exact (proj1 (ensureImageExists_pull_succeeded Sim.gameImage Sim.stopped None eq_refl)).
Defined.

Lemma Create_request_locked_down_witness :
  In (Sent (ContainerCreateReq
              (containerConfig (env Sim.offlineRegistry) "java -jar server.jar")
              (containerHostConfig (env Sim.offlineRegistry))
              (Id (env Sim.offlineRegistry))))
     (effects (Create "java -jar server.jar" Sim.offlineRegistry)) /\
  ReadonlyRootfs (containerHostConfig (env Sim.offlineRegistry)) = true.
Proof.
  assert (H : In (Sent (ContainerCreateReq
                          (containerConfig (env Sim.offlineRegistry) "java -jar server.jar")
                          (containerHostConfig (env Sim.offlineRegistry))
                          (Id (env Sim.offlineRegistry))))
                 (effects (Create "java -jar server.jar" Sim.offlineRegistry))).
  { vm_compute. right. right. left. reflexivity. }
  split; [exact H|].
  pose proof (Create_request_locked_down _ _ _ _ _ H) as P.
  exact (proj1 (proj2 (proj2 (proj2 (proj2 (proj2 (proj2 (proj2 P)))))))).
Defined.

Lemma Create_inspect_error_witness :
  ContainerInspect (host Sim.cutOff) (Id (env Sim.cutOff)) = inl Sim.unreachable /\
  Create "java -jar server.jar" Sim.cutOff =
    mkOutcome (Some (WithStack Sim.unreachable)) Sim.cutOff [].
Proof.
  split; [reflexivity|].
  exact (Create_inspect_error "java -jar server.jar" Sim.cutOff Sim.unreachable
           eq_refl eq_refl).
Defined.

Lemma Create_image_list_failure_witness :
  ImageList (host Canned.brokenStore) pullTimeout =
    inl (ErrDaemon "image store unavailable") /\
  value (Create "java -jar server.jar" Canned.brokenStore) =
    Some (WithStack (ErrDaemon "image store unavailable")).
Proof.
  split; [reflexivity|].
  exact (proj1 (Create_image_list_failure "java -jar server.jar" Canned.brokenStore
                  (ErrNotFound "No such container")
                  (ErrDaemon "registry request timed out")
                  (ErrDaemon "image store unavailable")
                  eq_refl eq_refl eq_refl eq_refl)).
Defined.

Lemma Attach_attached_is_noop_witness :
  stream (env Sim.stubborn) = Some 1%nat /\
  Attach Sim.stubborn = mkOutcome None Sim.stubborn [].
Proof.
  split; [reflexivity|].
  exact (Attach_attached_is_noop Sim.stubborn 1%nat eq_refl).
Defined.

Lemma Attach_missing_container_witness :
  value (Exists Sim.noImage) = (false, None) /\
  value (Attach Sim.noImage) =
    Some (WithStack (errors_New
            "no such container: 1a7ce997-259b-452e-8b4e-cecc464142ca")).
Proof.
  assert (X : value (Exists Sim.noImage) = (false, None)) by reflexivity.
  split; [exact X|].
  rewrite (Attach_missing_container Sim.noImage eq_refl X). reflexivity.
Defined.

Lemma followOutput_starts_follower_witness :
  let w := mkWorld (Sim.server ProcessOfflineState None)
                   (Canned.mkHost (inr {| State_Running := false; LogPath := "" |})
                                  (inl Canned.refused) (inl Canned.refused)) in
  ContainerInspect (host w) (Id (env w)) = inr {| State_Running := false; LogPath := "" |} /\
  value (followOutput w) = Some (WithStack Canned.refused) /\
  In (Go (LogFollowerNilReader (Id (env w)))) (effects (followOutput w)).
Proof.
  intros w. split; [reflexivity|].
  pose proof (followOutput_starts_follower w
                {| State_Running := false; LogPath := "" |} eq_refl) as P.
  cbv zeta in P. destruct P as [_ P]. vm_compute in P. destruct P as [V E].
  split; vm_compute; [exact V|]. right. left. reflexivity.
Defined.

Lemma Attach_outcome_witness :
  stream (env Sim.stopped) = None /\
  value (Attach Sim.stopped) = None /\
  stream (env (world (Attach Sim.stopped))) = Some 1%nat.
Proof.
  split; [reflexivity|].
  pose proof (Attach_outcome Sim.stopped
                {| State_Running := false; LogPath := Sim.logPath (Id (env Sim.stopped)) |}
                eq_refl eq_refl eq_refl) as P.
  vm_compute in P. destruct P as [V [S _]].
  split; vm_compute; [exact V | exact S].
Defined.

Lemma Start_running_attached_witness :
  stream (env (mkWorld (Sim.server ProcessOfflineState (Some 1%nat))
                       (Sim.healthy (Some true)))) = Some 1%nat /\
  requests (effects (Start (mkWorld (Sim.server ProcessOfflineState (Some 1%nat))
                                    (Sim.healthy (Some true))))) = [].
Proof.
  split; [reflexivity|].
  exact (proj1 (proj2 (Start_running_attached
                         (mkWorld (Sim.server ProcessOfflineState (Some 1%nat))
                                  (Sim.healthy (Some true)))
                         {| State_Running := true;
                            LogPath := Sim.logPath (Id (Sim.server ProcessOfflineState
                                                                   (Some 1%nat))) |}
                         1%nat eq_refl eq_refl eq_refl))).
Defined.

Lemma Start_success_is_Starting_witness :
  value (Start Sim.stopped) = None /\
  st (env (world (Start Sim.stopped))) = ProcessStartingState.
Proof.
  split; [reflexivity|].
  exact (Start_success_is_Starting Sim.stopped eq_refl eq_refl).
Defined.

Lemma Start_prepare_failure_sends_no_start_witness :
  value (OnBeforeStart (booting Sim.noImage)) =
    Some (WithStack (ErrDaemon "registry request timed out")) /\
  filter isStart (requests (effects (Start Sim.noImage))) = [].
Proof.
  split; [reflexivity|].
  exact (Start_prepare_failure_sends_no_start Sim.noImage
           (WithStack (ErrDaemon "registry request timed out")) eq_refl eq_refl).
Defined.

Lemma Restart_stop_timeout_witness :
  value (Stop Sim.stubborn) = None /\
  value (Restart Sim.stubborn) = Some (WithStack DeadlineExceeded).
Proof.
  split; [reflexivity|].
  exact (proj1 (Restart_stop_timeout Sim.stubborn eq_refl eq_refl)).
Defined.

Lemma WaitForStop_deadline_witness :
  value (Stop Sim.stubborn) = None /\
  In (ContainerWaitReq (5 * 1000000000) (Id (env (world (Stop Sim.stubborn))))
                       WaitConditionNotRunning)
     (requests (effects (WaitForStop 5 false Sim.stubborn))).
Proof.
  split; [reflexivity|].
  assert (R : 0 <= 5 <= 9223372036) by lia.
  exact (proj1 (WaitForStop_deadline 5 false Sim.stubborn eq_refl R)).
Defined.

Lemma New_without_string_uuid_witness :
  Installer.jsonparser_Get (Installer.JObject [("uuid", Installer.JNumber 7)]) ["uuid"]
    = Some (Installer.JNumber 7) /\
  Installer.New (ext := Installer.examplePanel)
    (Installer.JObject [("uuid", Installer.JNumber 7)])
  = (None, Some (ValidationError "uuid provided was not in a valid format")).
Proof.
  split; [reflexivity|].
  apply (New_without_string_uuid (ext := Installer.examplePanel)).
  intros s. discriminate.
Defined.

Lemma New_panel_outcomes_witness :
  Installer.mapsDecode (ext := Installer.examplePanel) Installer.completeRequest = true /\
  Installer.New (ext := Installer.examplePanel) Installer.completeRequest =
  (Some {| Installer.server :=
             Some (Installer.knownServer, "quay.io/pterodactyl/core:java") |}, None).
Proof.
  split; [reflexivity|].
  exact (New_panel_outcomes (ext := Installer.examplePanel)
           Installer.completeRequest eq_refl eq_refl eq_refl).
Defined.
